(** * Tarot reading bot: a shallow embedding of [main.py] and its properties

    The development follows the layout of the program: Python's string
    methods, the exception-and-state discipline of the interpreter, the
    [random] module, the spread catalogue, the [TarotReading] class (text
    and image rendering) and the chat commands, followed by the theorems.

    Strings are byte strings: a character of the model is one byte of the
    UTF-8 encoding of the Python string.  What Python does by the Unicode
    character tables ([str.lower], [str.title]) is a parameter of the
    development, known on ASCII text. *)

From Stdlib Require Import List String Ascii Bool Arith ZArith Lia.
From Stdlib Require Import Permutation DecimalString.
Import ListNotations.
Open Scope string_scope.

(* ================================================================== *)
(** ** Python string methods *)
(* ================================================================== *)

Module PyStr.

(** The line feed written [\n] in the source. *)
Definition nl : string := String "010" "".

Definition is_upper (c : ascii) : bool :=
  let n := nat_of_ascii c in Nat.leb 65 n && Nat.leb n 90.

Definition is_lower (c : ascii) : bool :=
  let n := nat_of_ascii c in Nat.leb 97 n && Nat.leb n 122.

Definition is_cased (c : ascii) : bool := is_upper c || is_lower c.

Definition to_lower (c : ascii) : ascii :=
  if is_upper c then ascii_of_nat (nat_of_ascii c + 32) else c.

Definition to_upper (c : ascii) : ascii :=
  if is_lower c then ascii_of_nat (nat_of_ascii c - 32) else c.

Fixpoint map_chars (f : ascii -> ascii) (s : string) : string :=
  match s with
  | EmptyString => EmptyString
  | String c s' => String (f c) (map_chars f s')
  end.

(** [s.lower()] for a string of ASCII characters. *)
Definition ascii_lower (s : string) : string := map_chars to_lower s.

(** All characters of the string are ASCII. *)
Fixpoint is_ascii (s : string) : bool :=
  match s with
  | EmptyString => true
  | String c s' => Nat.ltb (nat_of_ascii c) 128 && is_ascii s'
  end.

(** [s.replace(old, new)] for one-character ASCII [old] and [new], the
    only form the program uses. *)
Definition replace (old new : ascii) (s : string) : string :=
  map_chars (fun c => if Ascii.eqb c old then new else c) s.

(** [s.title()] for a string of ASCII characters: a letter is upper-cased
    when the character before it is not a letter, and lower-cased when it
    is. *)
Fixpoint ascii_title_from (previous_is_cased : bool) (s : string) : string :=
  match s with
  | EmptyString => EmptyString
  | String c s' =>
      let c' :=
        if is_lower c then (if previous_is_cased then c else to_upper c)
        else if is_upper c then (if previous_is_cased then to_lower c else c)
        else c in
      String c' (ascii_title_from (is_cased c) s')
  end.

Definition ascii_title (s : string) : string := ascii_title_from false s.

(** [sep.join(items)]. *)
Fixpoint join (sep : string) (items : list string) : string :=
  match items with
  | [] => ""
  | [x] => x
  | x :: rest => x ++ sep ++ join sep rest
  end.

(** [needle in haystack]. *)
Fixpoint contains (needle haystack : string) : bool :=
  String.prefix needle haystack ||
  match haystack with
  | EmptyString => false
  | String _ rest => contains needle rest
  end.

(** [str(n)] for a natural number and for an integer. *)
Definition of_nat (n : nat) : string :=
  NilZero.string_of_uint (Nat.to_uint n).

Definition of_Z (z : Z) : string :=
  NilZero.string_of_int (Z.to_int z).

(** Truthiness of a string ([if s:]) and of an optional string. *)
Definition truthy (s : string) : bool :=
  match s with EmptyString => false | _ => true end.

Definition truthy_opt (o : option string) : bool :=
  match o with None => false | Some s => truthy s end.

(** A byte that continues a character of several bytes. *)
Definition is_continuation (c : ascii) : bool :=
  let n := nat_of_ascii c in Nat.leb 128 n && Nat.ltb n 192.

(** [s[:n]]: the first [n] characters, each with the bytes that continue
    it. *)
Fixpoint slice_to (n : nat) (s : string) : string :=
  match s with
  | EmptyString => EmptyString
  | String c s' =>
      if is_continuation c then String c (slice_to n s')
      else match n with
           | 0 => EmptyString
           | S n' => String c (slice_to n' s')
           end
  end.

End PyStr.

(** Python's [str.lower] and [str.title] follow the Unicode character
    tables, which are not part of the program.  They are taken as they
    are; on a string of ASCII characters they are the ASCII functions
    above. *)
Class PyText : Type := {
  lower : string -> string;
  title : string -> string;
  lower_ascii : forall s, PyStr.is_ascii s = true -> lower s = PyStr.ascii_lower s;
  title_ascii : forall s, PyStr.is_ascii s = true -> title s = PyStr.ascii_title s
}.

(** The text functions that treat only the ASCII letters as letters, for
    trying the definitions. *)
Definition ascii_text : PyText :=
  {| lower := PyStr.ascii_lower;
     title := PyStr.ascii_title;
     lower_ascii := fun s _ => eq_refl;
     title_ascii := fun s _ => eq_refl |}.

(* ================================================================== *)
(** ** Exceptions and state *)
(* ================================================================== *)

(** The exceptions the modelled library calls can raise. *)
Inductive exn : Type :=
| ValueError (msg : string)
| IndexError (msg : string)
| OSError (msg : string)
| FileNotFoundError (msg : string)
| JSONDecodeError (msg : string)
| OtherError (class_name msg : string).

Definition exn_class (e : exn) : string :=
  match e with
  | ValueError _ => "ValueError"
  | IndexError _ => "IndexError"
  | OSError _ => "OSError"
  | FileNotFoundError _ => "FileNotFoundError"
  | JSONDecodeError _ => "JSONDecodeError"
  | OtherError c _ => c
  end.

Definition exn_message (e : exn) : string :=
  match e with
  | ValueError m | IndexError m | OSError m => m
  | FileNotFoundError m | JSONDecodeError m => m
  | OtherError _ m => m
  end.

(** How a call ends: it returns, it raises, or it is still inside a loop
    that waits for the random source when the model stops following it
    (only the redraw loop of [random.sample] can be left that way). *)
Inductive outcome (A : Type) : Type :=
| Returned (a : A)
| Raised (e : exn)
| Unfinished.
Arguments Returned {A} a.
Arguments Raised {A} e.
Arguments Unfinished {A}.

(** A computation over a state [S] that returns or raises.  The state that
    an exception leaves behind is kept: a mutation made before a [raise]
    is not undone. *)
Definition Py (S A : Type) : Type := S -> outcome A * S.

Definition ret {S A} (a : A) : Py S A := fun s => (Returned a, s).

Definition raise {S A} (e : exn) : Py S A := fun s => (Raised e, s).

Definition unfinished {S A} : Py S A := fun s => (Unfinished, s).

Definition bind {S A B} (c : Py S A) (k : A -> Py S B) : Py S B :=
  fun s =>
    match c s with
    | (Returned a, s') => k a s'
    | (Raised e, s') => (Raised e, s')
    | (Unfinished, s') => (Unfinished, s')
    end.

Declare Scope py_scope.
Delimit Scope py_scope with py.
Notation "x <- c ;; k" := (bind c (fun x => k))
  (at level 100, c at next level, right associativity) : py_scope.
Notation "c ;;; k" := (bind c (fun _ => k))
  (at level 100, right associativity) : py_scope.
Open Scope py_scope.

(** [try: body / except: pass]. *)
Definition try_except_pass {S} (body : Py S unit) : Py S unit :=
  fun s =>
    match body s with
    | (Returned tt, s') => (Returned tt, s')
    | (Raised _, s') => (Returned tt, s')
    | (Unfinished, s') => (Unfinished, s')
    end.

(** [for x in items: body(x)]. *)
Fixpoint for_each {S A} (items : list A) (body : A -> Py S unit) : Py S unit :=
  match items with
  | [] => ret tt
  | x :: rest => body x ;;; for_each rest body
  end.

(** [for x in items: acc = body(acc, x)], for a loop that rebinds a local. *)
Fixpoint for_fold {S A B} (items : list A) (body : B -> A -> Py S B) (acc : B)
  : Py S B :=
  match items with
  | [] => ret acc
  | x :: rest => acc' <- body acc x ;; for_fold rest body acc'
  end.

(** [enumerate(items)], counting from [start]. *)
Fixpoint enumerate_from {A} (start : nat) (items : list A) : list (nat * A) :=
  match items with
  | [] => []
  | x :: rest => (start, x) :: enumerate_from (S start) rest
  end.

Definition enumerate {A} (items : list A) : list (nat * A) :=
  enumerate_from 0 items.

(* ================================================================== *)
(** ** The [random] module *)
(* ================================================================== *)

(** The random source is a tape of raw draws and a cursor on it; every
    sequence of outcomes is the tape of some source.  A tape can repeat
    itself for ever, and on such a tape the redraw loop of [random.sample]
    never ends: [patience] is the number of redraws one such loop is
    followed for before the call is reported [Unfinished]. *)
Record rng : Type := { tape : nat -> nat; cursor : nat; patience : nat }.

Module random.

(** [_randbelow(n)]: the next raw draw, reduced below [n]. *)
Definition randbelow (n : nat) : Py rng nat :=
  fun g => (Returned (tape g (cursor g) mod n),
            {| tape := tape g; cursor := S (cursor g);
               patience := patience g |}).

(** [random.choice(seq)]. *)
Definition choice {A} (seq : list A) : Py rng A :=
  match seq with
  | [] => raise (IndexError "Cannot choose from an empty sequence")
  | _ =>
      i <- randbelow (List.length seq) ;;
      match nth_error seq i with
      | Some x => ret x
      | None => raise (IndexError "list index out of range")
      end
  end.

(** [pool[j] = v]. *)
Fixpoint set_item {A} (pool : list A) (j : nat) (v : A) : list A :=
  match pool, j with
  | [], _ => []
  | _ :: rest, 0 => v :: rest
  | x :: rest, S j' => x :: set_item rest j' v
  end.

(** The selection loop of [random.sample] over a pool whose first [m]
    entries are still available: pick one of them, move the last
    available entry into its place, and go on with [m - 1]. *)
Fixpoint sample_loop {A} (pool : list A) (m k : nat) : Py rng (list A) :=
  match k with
  | 0 => ret []
  | S k' =>
      j <- randbelow m ;;
      match nth_error pool j, nth_error pool (m - 1) with
      | Some picked, Some last =>
          rest <- sample_loop (set_item pool j last) (m - 1) k' ;;
          ret (picked :: rest)
      | _, _ => raise (IndexError "list index out of range")
      end
  end.

(** [setsize]: 21, and for [k > 5] also [4 ** ceil(log(k * 3, 4))], the
    least power of 4 that is not below [3 * k]. *)
Definition setsize (k : nat) : nat :=
  if Nat.ltb 5 k then 21 + 4 ^ ((Nat.log2_up (3 * k) + 1) / 2) else 21.

(** [while j in selected: j = randbelow(n)], followed for [fuel] redraws. *)
Fixpoint redraw_loop (fuel n : nat) (selected : list nat) (j : nat)
  : Py rng nat :=
  if existsb (Nat.eqb j) selected then
    match fuel with
    | 0 => unfinished
    | S fuel' => j' <- randbelow n ;; redraw_loop fuel' n selected j'
    end
  else ret j.

Definition redraw (n : nat) (selected : list nat) (j : nat) : Py rng nat :=
  fun g => redraw_loop (patience g) n selected j g.

(** The other loop of [random.sample], for a population that is large
    beside [k]: draw a position, draw again while it was selected before,
    and take the entry at that position. *)
Fixpoint sample_set_loop {A} (population : list A) (n : nat)
    (selected : list nat) (k : nat) : Py rng (list A) :=
  match k with
  | 0 => ret []
  | S k' =>
      j <- randbelow n ;;
      j <- redraw n selected j ;;
      match nth_error population j with
      | Some picked =>
          rest <- sample_set_loop population n (j :: selected) k' ;;
          ret (picked :: rest)
      | None => raise (IndexError "list index out of range")
      end
  end.

(** [random.sample(population, k)]: [ValueError] when the population is
    too small; the selection loop on a copy of the population when the
    population is at most [setsize] long; the loop over a set of selected
    positions otherwise. *)
Definition sample {A} (population : list A) (k : nat) : Py rng (list A) :=
  let n := List.length population in
  if Nat.ltb n k
  then raise (ValueError "Sample larger than population or is negative")
  else if Nat.leb n (setsize k)
  then sample_loop population n k
  else sample_set_loop population n [] k.

End random.

(* ================================================================== *)
(** ** Data: cards, the spread catalogue, readings *)
(* ================================================================== *)

(** [card['number']] is an integer for some records of the deck file and a
    string for others; only its rendering in an f-string is used. *)
Inductive CardNumber : Type :=
| IntNumber (n : Z)
| StrNumber (s : string).

Definition format_number (n : CardNumber) : string :=
  match n with
  | IntNumber z => PyStr.of_Z z
  | StrNumber s => s
  end.

(** One record of [data/tarot_cards.json]; [suit] is [None] for JSON
    [null]. *)
Record Card : Type := {
  number : CardNumber;
  name : string;
  arcana : string;
  suit : option string;
  keywords : list string;
  meaning_up : string;
  meaning_rev : string
}.

(** [SPREADS], in declaration order (the order [SPREADS.items()] yields). *)
Definition SPREADS : list (string * list string) :=
  [ ("single", ["Present"]);
    ("three_card", ["Past"; "Present"; "Future"]);
    ("celtic_cross", ["1. Present"; "2. Challenge"; "3. Past"; "4. Future";
                      "5. Above"; "6. Below"; "7. Advice"; "8. External";
                      "9. Hopes/Fears"; "10. Outcome"]);
    ("relationship", ["You"; "Partner"; "Connection"; "Advice"]);
    ("career", ["Current Situation"; "Challenges"; "Opportunities"; "Outcome"]) ].

(** [d.get(key)] on a dictionary kept as an association list. *)
Fixpoint dict_get {V} (d : list (string * V)) (key : string) : option V :=
  match d with
  | [] => None
  | (k, v) :: rest => if String.eqb key k then Some v else dict_get rest key
  end.

(** [key in d]. *)
Definition dict_mem {V} (d : list (string * V)) (key : string) : bool :=
  match dict_get d key with Some _ => true | None => false end.

(** The attributes of a [TarotReading] object. *)
Record TarotReading : Type := {
  cards : list Card;
  spread_type : string;
  question : option string;
  positions : list string
}.

(** [TarotReading.__init__]. *)
Definition TarotReading_init (cards : list Card) (spread_type : string)
    (question : option string) : TarotReading :=
  {| cards := cards;
     spread_type := spread_type;
     question := question;
     positions := match dict_get SPREADS spread_type with
                  | Some ps => ps
                  | None => []
                  end |}.

(* ================================================================== *)
(** ** Text rendering: [TarotReading.generate_reading] *)
(* ================================================================== *)

Import PyStr.

Section Text.

Context {U : PyText}.

(** The body of the loop over [zip(self.cards, self.positions)]: one coin
    flip, then the lines appended to [reading]. *)
Definition generate_reading_body (reading : string) (cp : Card * string)
  : Py rng string :=
  let (card, position) := cp in
  is_reversed <- random.choice [true; false] ;;
  let orientation := if is_reversed then "Reversed 🔄" else "Upright ⬆️" in
  let reading := reading ++ ("### " ++ position ++ nl) in
  let reading := reading ++ ("**Card:** " ++ name card ++ " (" ++ orientation ++ ")" ++ nl) in
  let reading := reading ++ ("**Arcana:** " ++ title (arcana card) ++ nl) in
  let reading :=
    match suit card with
    | Some s => if truthy s then reading ++ ("**Suit:** " ++ title s ++ nl)
                else reading
    | None => reading
    end in
  let reading := reading ++ ("**Keywords:** " ++ join ", " (keywords card) ++ nl) in
  let meaning := if is_reversed then meaning_rev card else meaning_up card in
  let reading := reading ++ ("**Interpretation:** " ++ meaning ++ nl ++ nl) in
  ret reading.

Definition generate_reading (self : TarotReading) : Py rng string :=
  let reading :=
    "## 🔮 Tarot Reading - " ++ title (replace "_" " " (spread_type self)) ++ nl in
  let reading :=
    match question self with
    | Some q => if truthy q then reading ++ ("**Question:** " ++ q ++ nl ++ nl)
                else reading
    | None => reading
    end in
  for_fold (combine (cards self) (positions self)) generate_reading_body reading.

(** A fixed card and two random sources, for trying the definitions. *)
Definition the_fool : Card :=
  {| number := IntNumber 0; name := "The Fool"; arcana := "major";
     suit := None; keywords := ["beginnings"; "innocence"];
     meaning_up := "A leap of faith."; meaning_rev := "Recklessness." |}.

Definition ace_of_cups : Card :=
  {| number := StrNumber "1"; name := "Ace of Cups"; arcana := "minor";
     suit := Some "cups"; keywords := ["love"];
     meaning_up := "New feelings."; meaning_rev := "Blocked feelings." |}.

(** A source whose every raw draw is [v]. *)
Definition constant_rng (v : nat) : rng :=
  {| tape := fun _ => v; cursor := 0; patience := 0 |}.

(* ================================================================== *)
(** ** Image rendering: [TarotReading.create_card_image] *)
(* ================================================================== *)

(** What the program can observe of the asset directory and of the image
    decoder: whether a path exists, whether a file opens for reading,
    whether [Image.open] accepts it, and whether its pixel data decodes
    (Pillow decodes lazily, so that failure shows in [rotate] or
    [resize]). *)
Record Assets : Type := {
  path_exists : string -> bool;
  file_readable : string -> bool;
  image_open_ok : string -> bool;
  image_load_ok : string -> bool
}.

Definition rgb : Type := nat * nat * nat.
Definition box : Type := nat * nat * nat * nat.

(** A picture read from a file, and what was done to it. *)
Inductive Picture : Type :=
| FileImage (path : string)
| Rotated (degrees : nat) (p : Picture)
| Resized (w h : nat) (p : Picture).

Fixpoint picture_source (p : Picture) : string :=
  match p with
  | FileImage path => path
  | Rotated _ q | Resized _ _ q => picture_source q
  end.

(** What has been drawn on a canvas, oldest first. *)
Inductive DrawOp : Type :=
| Paste (p : Picture) (x y : nat)
| Rectangle (xy : box) (fill outline : option rgb) (width : nat)
| Text (x y : nat) (text : string) (fill : rgb) (anchor : string).

Record Canvas : Type := {
  canvas_width : nat;
  canvas_height : nat;
  background : rgb;
  drawn : list DrawOp
}.

(** The bytes [img.save(..., format='PNG')] writes, kept as the size in
    their header and the picture they encode. *)
Record PngImage : Type := {
  png_width : nat;
  png_height : nat;
  png_background : rgb;
  png_content : list DrawOp
}.

End Text.

(** Pillow, as far as the program uses it.  Reading a file can raise;
    drawing on the in-memory canvas and encoding it cannot. *)
Module PIL.

(** [Image.new('RGB', (w, h), color=c)]. *)
Definition new (w h : nat) (c : rgb) : Canvas :=
  {| canvas_width := w; canvas_height := h; background := c; drawn := [] |}.

Definition open {S} (fs : Assets) (path : string) : Py S Picture :=
  if image_open_ok fs path then ret (FileImage path)
  else raise (OSError "cannot identify image file").

Definition rotate {S} (fs : Assets) (degrees : nat) (p : Picture)
  : Py S Picture :=
  if image_load_ok fs (picture_source p) then ret (Rotated degrees p)
  else raise (OSError "image file is truncated").

Definition resize {S} (fs : Assets) (w h : nat) (p : Picture) : Py S Picture :=
  if image_load_ok fs (picture_source p) then ret (Resized w h p)
  else raise (OSError "image file is truncated").

Definition put (op : DrawOp) : Py Canvas unit :=
  fun c => (Returned tt,
            {| canvas_width := canvas_width c;
               canvas_height := canvas_height c;
               background := background c;
               drawn := (drawn c ++ [op])%list |}).

(** [img.paste(p, (x, y))]. *)
Definition paste (p : Picture) (x y : nat) : Py Canvas unit := put (Paste p x y).

(** [draw.rectangle(xy, fill=..., outline=..., width=...)]. *)
Definition rectangle (xy : box) (fill outline : option rgb) (width : nat)
  : Py Canvas unit :=
  put (Rectangle xy fill outline width).

(** [draw.text((x, y), text, fill=..., anchor=...)]. *)
Definition text (x y : nat) (t : string) (fill : rgb) (anchor : string)
  : Py Canvas unit :=
  put (Text x y t fill anchor).

(** [img.save(buffer, format='PNG')], returning the buffer. *)
Definition save_png : Py Canvas PngImage :=
  fun c => (Returned {| png_width := canvas_width c;
                        png_height := canvas_height c;
                        png_background := background c;
                        png_content := drawn c |}, c).

End PIL.

Section Program.

Context {U : PyText}.

(** [os.path.join(dir, file)]. *)
Definition path_join (dir file : string) : string := dir ++ "/" ++ file.

(** The file name of a card's art, as both renderers compute it. *)
Definition card_filename (card : Card) : string :=
  format_number (number card) ++ "_" ++ replace " " "_" (lower (name card)) ++ ".jpg".

(** The two drawing calls of the placeholder. *)
Definition placeholder_ops (card : Card) : list DrawOp :=
  [ Rectangle (10, 10, 390, 590) None (Some (100, 100, 150)) 3;
    Text 200 300 (name card) (200, 200, 255) "mm" ].

(** The statements of [create_card_image] after [Image.new], run on the
    canvas. *)
Definition create_card_image_on_canvas (fs : Assets) (card : Card)
    (position : string) (is_reversed : bool) : Py Canvas PngImage :=
  try_except_pass (
    let card_path := path_join "card_images" (card_filename card) in
    if path_exists fs card_path then
      card_img <- PIL.open fs card_path ;;
      card_img <- (if is_reversed then PIL.rotate fs 180 card_img
                   else ret card_img) ;;
      resized <- PIL.resize fs 380 580 card_img ;;
      PIL.paste resized 10 10
    else
      PIL.rectangle (10, 10, 390, 590) None (Some (100, 100, 150)) 3 ;;;
      PIL.text 200 300 (name card) (200, 200, 255) "mm") ;;;
  PIL.rectangle (0, 550, 400, 600) (Some (50, 50, 70)) None 1 ;;;
  PIL.text 200 575 position (255, 255, 200) "mm" ;;;
  let orient_text := if is_reversed then "Reversed" else "Upright" in
  PIL.text 200 25 orient_text (255, 200, 200) "mm" ;;;
  PIL.save_png.

Definition create_card_image (fs : Assets) (card : Card) (position : string)
    (is_reversed : bool) : outcome PngImage :=
  let img := PIL.new 400 600 (30, 30, 40) in
  fst (create_card_image_on_canvas fs card position is_reversed img).

(* ================================================================== *)
(** ** The chat side: messages, embeds, the bot's state *)
(* ================================================================== *)

Inductive Color : Type := purple | dark_purple | gold | blue.

Record EmbedField : Type := {
  field_name : string;
  field_value : string;
  field_inline : bool
}.

Record Embed : Type := {
  embed_title : string;
  embed_description : option string;
  embed_color : Color;
  embed_fields : list EmbedField;
  embed_footer : option string
}.

(** [embed.add_field(name=..., value=..., inline=...)]. *)
Definition add_field (e : Embed) (n v : string) (inline : bool) : Embed :=
  {| embed_title := embed_title e;
     embed_description := embed_description e;
     embed_color := embed_color e;
     embed_fields := (embed_fields e ++ [ {| field_name := n; field_value := v;
                                              field_inline := inline |} ])%list;
     embed_footer := embed_footer e |}.

(** [embed.set_footer(text=...)]. *)
Definition set_footer (e : Embed) (t : string) : Embed :=
  {| embed_title := embed_title e;
     embed_description := embed_description e;
     embed_color := embed_color e;
     embed_fields := embed_fields e;
     embed_footer := Some t |}.

Inductive Attachment : Type :=
| PngBytes (img : PngImage)
| DiskFile (path : string).

(** What [ctx.send] was called with. *)
Inductive Message : Type :=
| SendText (content : string)
| SendEmbed (embed : Embed)
| SendFile (filename : string) (file : Attachment).

(** The state a command runs in: the random source and the messages sent
    to the channel so far, oldest first. *)
Record Bot : Type := { rand : rng; sent : list Message }.

Definition send (m : Message) : Py Bot unit :=
  fun b => (Returned tt, {| rand := rand b; sent := (sent b ++ [m])%list |}).

(** A computation of the [random] module, run on the bot's source. *)
Definition with_random {A} (c : Py rng A) : Py Bot A :=
  fun b => let (r, g) := c (rand b) in (r, {| rand := g; sent := sent b |}).

(** A call that raises or returns without touching the bot's state. *)
Definition lift_outcome {S A} (o : outcome A) : Py S A := fun s => (o, s).

(** [discord.File(path, filename=...)] opens the file. *)
Definition discord_File (fs : Assets) (path : string) : Py Bot Attachment :=
  if file_readable fs path then ret (DiskFile path)
  else raise (OSError "No such file or directory").

(* ================================================================== *)
(** ** The commands *)
(* ================================================================== *)

(** The embed [!tarot] answers with when the spread is not in [SPREADS]:
    one field per spread, in catalogue order. *)
Definition spreads_listing : Embed :=
  fold_left
    (fun embed (entry : string * list string) =>
       let (spread, positions) := entry in
       add_field embed
         (title (replace "_" " " spread))
         (of_nat (List.length positions) ++ " cards" ++ nl
            ++ "`!tarot " ++ spread ++ " [question]`")
         true)
    SPREADS
    {| embed_title := "🔮 Available Tarot Spreads";
       embed_description := Some "Choose a spread type:";
       embed_color := purple;
       embed_fields := [];
       embed_footer := None |}.

(** [[random.choice([True, False]) for _ in range(n)]]. *)
Fixpoint draw_orientations (n : nat) : Py rng (list bool) :=
  match n with
  | 0 => ret []
  | S n' =>
      b <- random.choice [true; false] ;;
      rest <- draw_orientations n' ;;
      ret (b :: rest)
  end.

(** [orientations[i]]. *)
Definition list_item {S A} (l : list A) (i : nat) : Py S A :=
  match nth_error l i with
  | Some x => ret x
  | None => raise (IndexError "list index out of range")
  end.

(** The [!tarot] command.  [tarot_cards] is the deck loaded at start-up and
    [author] stands for [ctx.author.display_name]. *)
Definition tarot_reading (fs : Assets) (tarot_cards : list Card)
    (author : string) (spread_type : string) (question : option string)
  : Py Bot unit :=
  match dict_get SPREADS spread_type with
  | None => send (SendEmbed spreads_listing)
  | Some spread_positions =>
      let num_cards := List.length spread_positions in
      drawn_cards <- with_random (random.sample tarot_cards num_cards) ;;
      orientations <- with_random (draw_orientations num_cards) ;;
      let reading := TarotReading_init drawn_cards spread_type question in
      reading_text <- with_random (generate_reading reading) ;;
      let embed :=
        {| embed_title :=
             "🔮 Tarot Reading - " ++ title (replace "_" " " spread_type);
           embed_description := Some (slice_to 4096 reading_text);
           embed_color := dark_purple;
           embed_fields := [];
           embed_footer := None |} in
      let embed :=
        match question with
        | Some q => if truthy q then add_field embed "Question" q false
                    else embed
        | None => embed
        end in
      let embed := set_footer embed ("Reading for " ++ author) in
      send (SendEmbed embed) ;;;
      for_each (enumerate (combine drawn_cards spread_positions))
        (fun '(i, (card, position)) =>
           is_reversed <- list_item orientations i ;;
           img_bytes <- lift_outcome
                          (create_card_image fs card position is_reversed) ;;
           send (SendFile ("card_" ++ of_nat (i + 1) ++ ".png")
                          (PngBytes img_bytes)))
  end.

(** The search of the [!card] command:
    [next((c for c in tarot_cards if card_name.lower() in c['name'].lower()), None)]. *)
Definition find_card (tarot_cards : list Card) (card_name : string)
  : option Card :=
  find (fun c => contains (lower card_name) (lower (name c))) tarot_cards.

Definition card_not_found (card_name : string) : string :=
  "❌ Card '" ++ card_name ++ "' not found. Try `!cards` to see all cards.".

(** The embed of the [!card] command and the sending of the card's art. *)
Definition show_card (fs : Assets) (card : Card) : Py Bot unit :=
  let embed :=
    {| embed_title := "🃏 " ++ name card;
       embed_description := None;
       embed_color := if String.eqb (arcana card) "major" then gold else blue;
       embed_fields := [];
       embed_footer := None |} in
  let embed := add_field embed "Number" (format_number (number card)) true in
  let embed := add_field embed "Arcana" (title (arcana card)) true in
  let embed :=
    match suit card with
    | Some s => if truthy s then add_field embed "Suit" (title s) true
                else embed
    | None => embed
    end in
  let embed := add_field embed "Keywords" (join ", " (keywords card)) false in
  let embed := add_field embed "Upright Meaning" (meaning_up card) false in
  let embed := add_field embed "Reversed Meaning" (meaning_rev card) false in
  let embed := set_footer embed "Draw this card with !tarot command" in
  send (SendEmbed embed) ;;;
  try_except_pass (
    let card_path := path_join "card_images" (card_filename card) in
    if path_exists fs card_path then
      file <- discord_File fs card_path ;;
      (* [embed.set_image] changes the embed object after it was sent *)
      send (SendFile "tarot_card.jpg" file)
    else ret tt).

(** The [!card] command; [card_name] is [None] when nothing follows the
    command word. *)
Definition single_card (fs : Assets) (tarot_cards : list Card)
    (card_name : option string) : Py Bot unit :=
  if negb (truthy_opt card_name) then
    card <- with_random (random.choice tarot_cards) ;;
    show_card fs card
  else
    let card_name := match card_name with Some s => s | None => "" end in
    match find_card tarot_cards card_name with
    | None => send (SendText (card_not_found card_name))
    | Some card => show_card fs card
    end.

(** What the command framework passes to [on_command_error]; an exception
    raised inside a command arrives wrapped in [CommandInvokeError], and
    [OtherCommandError] stands for every other error class of the
    framework. *)
Inductive CommandError : Type :=
| CommandNotFound (msg : string)
| MissingRequiredArgument (msg : string)
| CommandInvokeError (original : exn)
| OtherCommandError (msg : string).

(** [str(error)]. *)
Definition str_error (error : CommandError) : string :=
  match error with
  | CommandNotFound m | MissingRequiredArgument m | OtherCommandError m => m
  | CommandInvokeError e =>
      "Command raised an exception: " ++ exn_class e ++ ": " ++ exn_message e
  end.

Definition on_command_error (error : CommandError) : Py Bot unit :=
  match error with
  | CommandNotFound _ =>
      send (SendText "❌ Command not found. Use `!help` to see available commands.")
  | MissingRequiredArgument _ =>
      send (SendText "❌ Missing required argument. Use `!help` for command usage.")
  | CommandInvokeError _ | OtherCommandError _ =>
      send (SendText ("❌ An error occurred: " ++ str_error error))
  end.

(** How the framework runs a command: an exception that leaves the command
    is handed to [on_command_error]. *)
Definition invoke (command : Py Bot unit) : Py Bot unit :=
  fun b =>
    match command b with
    | (Returned tt, b') => (Returned tt, b')
    | (Raised e, b') => on_command_error (CommandInvokeError e) b'
    | (Unfinished, b') => (Unfinished, b')
    end.

(** A bot that has sent nothing yet. *)
Definition fresh_bot (g : rng) : Bot := {| rand := g; sent := [] |}.

(* ================================================================== *)
(** ** Start-up: loading the deck *)
(* ================================================================== *)

(** A parsed JSON document. *)
#[local] Unset Elimination Schemes.
Inductive json : Type :=
| JNull
| JBool (b : bool)
| JNumber (z : Z)
| JString (s : string)
| JArray (items : list json)
| JObject (members : list (string * json)).
#[local] Set Elimination Schemes.

(** What [open('data/tarot_cards.json')] and [json.load] can meet: a file
    that cannot be opened or read, with the exception [open] or the decoder
    raises; a text that is not JSON, with the exception of the parser; or
    a JSON document. *)
Inductive DeckSource : Type :=
| Unreadable (e : exn)
| NotJson (e : exn)
| Document (doc : json).

(** [with open(...) as f: tarot_cards = json.load(f)]: the value bound to
    [tarot_cards] is the parsed document itself. *)
Definition load_tarot_cards (source : DeckSource) : outcome json :=
  match source with
  | Unreadable e => Raised e
  | NotJson e => Raised e
  | Document doc => Returned doc
  end.

(** The fields a card record is read by. *)
Definition required_fields : list string :=
  ["number"; "name"; "arcana"; "suit"; "keywords"; "meaning_up"; "meaning_rev"].

(** The three ways the specification calls a deck source malformed. *)
Definition missing_required_field (record : json) : bool :=
  match record with
  | JObject members =>
      negb (forallb (fun f => dict_mem members f) required_fields)
  | _ => true
  end.

Definition record_name (record : json) : option string :=
  match record with
  | JObject members =>
      match dict_get members "name" with
      | Some (JString s) => Some s
      | _ => None
      end
  | _ => None
  end.

Fixpoint has_duplicate (names : list (option string)) : bool :=
  match names with
  | [] => false
  | Some n :: rest =>
      existsb (fun o => match o with Some m => String.eqb n m | None => false end)
              rest
      || has_duplicate rest
  | None :: rest => has_duplicate rest
  end.

Definition malformed (doc : json) : bool :=
  match doc with
  | JArray [] => true
  | JArray records =>
      existsb missing_required_field records
      || has_duplicate (map record_name records)
  | _ => true
  end.

(* ================================================================== *)
(** ** Descriptions used in the statements *)
(* ================================================================== *)

(** The source [skip n g] is [g] after [n] raw draws. *)
Definition skip (n : nat) (g : rng) : rng :=
  {| tape := tape g; cursor := cursor g + n; patience := patience g |}.

(** The [i]-th coin flip ahead of the cursor: [random.choice([True, False])]
    picks [True] at index 0. *)
Definition coin_at (g : rng) (i : nat) : bool :=
  Nat.eqb (tape g (cursor g + i) mod 2) 0.

Definition flips (g : rng) (n : nat) : list bool := map (coin_at g) (seq 0 n).

(** The header, question line and per-card section of a rendered reading,
    as the specification describes them. *)
Definition header_text (spread : string) : string :=
  "## 🔮 Tarot Reading - " ++ title (replace "_" " " spread) ++ nl.

Definition question_line (q : option string) : string :=
  match q with
  | Some q => if truthy q then "**Question:** " ++ q ++ nl ++ nl else ""
  | None => ""
  end.

Definition orientation_label (is_reversed : bool) : string :=
  if is_reversed then "Reversed 🔄" else "Upright ⬆️".

Definition suit_line (card : Card) : string :=
  match suit card with
  | Some s => if truthy s then "**Suit:** " ++ title s ++ nl else ""
  | None => ""
  end.

Definition section_text (card : Card) (position : string) (is_reversed : bool)
  : string :=
  "### " ++ position ++ nl
  ++ "**Card:** " ++ name card ++ " (" ++ orientation_label is_reversed ++ ")" ++ nl
  ++ "**Arcana:** " ++ title (arcana card) ++ nl
  ++ suit_line card
  ++ "**Keywords:** " ++ join ", " (keywords card) ++ nl
  ++ "**Interpretation:** "
  ++ (if is_reversed then meaning_rev card else meaning_up card) ++ nl ++ nl.

(** The sections of the drawn cards, given the orientation of each. *)
Definition sections (drawn : list (Card * string)) (orientations : list bool)
  : list string :=
  map (fun '((card, position), r) => section_text card position r)
      (combine drawn orientations).

Definition reading_text (spread : string) (q : option string)
    (drawn : list (Card * string)) (orientations : list bool) : string :=
  header_text spread ++ question_line q
  ++ String.concat "" (sections drawn orientations).

(** The captions every card image ends with. *)
Definition caption_ops (position : string) (is_reversed : bool) : list DrawOp :=
  [ Rectangle (0, 550, 400, 600) (Some (50, 50, 70)) None 1;
    Text 200 575 position (255, 255, 200) "mm";
    Text 200 25 (if is_reversed then "Reversed" else "Upright")
         (255, 200, 200) "mm" ].

(** The card art as it is pasted when every step succeeds. *)
Definition art_ops (card : Card) (is_reversed : bool) : list DrawOp :=
  let file := FileImage (path_join "card_images" (card_filename card)) in
  [ Paste (Resized 380 580 (if is_reversed then Rotated 180 file else file))
          10 10 ].

Definition card_png (layer : list DrawOp) (position : string)
    (is_reversed : bool) : PngImage :=
  {| png_width := 400; png_height := 600; png_background := (30, 30, 40);
     png_content := (layer ++ caption_ops position is_reversed)%list |}.

(** The asset of a card is missing, or is there and fails to load. *)
Definition asset_missing (fs : Assets) (card : Card) : Prop :=
  path_exists fs (path_join "card_images" (card_filename card)) = false.

Definition asset_fails (fs : Assets) (card : Card) : Prop :=
  let p := path_join "card_images" (card_filename card) in
  path_exists fs p = true /\ (image_open_ok fs p = false \/ image_load_ok fs p = false).

(** The query matches a card: the lower-cased query occurs inside the
    lower-cased name. *)
Definition name_matches (query : string) (card : Card) : Prop :=
  exists before after, lower (name card) = before ++ lower query ++ after.

(** The embed and the attachments of a reading whose text was rendered with
    [text_flips] and whose images were rendered with [image_flips]. *)
Definition reading_embed (author spread : string) (q : option string)
    (text : string) : Embed :=
  {| embed_title := "🔮 Tarot Reading - " ++ title (replace "_" " " spread);
     embed_description := Some (slice_to 4096 text);
     embed_color := dark_purple;
     embed_fields :=
       match q with
       | Some s => if truthy s
                   then [ {| field_name := "Question"; field_value := s;
                             field_inline := false |} ]
                   else []
       | None => []
       end;
     embed_footer := Some ("Reading for " ++ author) |}.

(** The image of an asset directory's answer for one card. *)
Definition rendered_layer (fs : Assets) (card : Card) (is_reversed : bool)
  : list DrawOp :=
  let p := path_join "card_images" (card_filename card) in
  if path_exists fs p then
    if image_open_ok fs p && image_load_ok fs p then art_ops card is_reversed
    else []
  else placeholder_ops card.

Fixpoint card_files (fs : Assets) (start : nat) (drawn : list (Card * string))
    (orientations : list bool) : list Message :=
  match drawn, orientations with
  | (card, position) :: drawn', r :: orientations' =>
      SendFile ("card_" ++ of_nat (start + 1) ++ ".png")
               (PngBytes (card_png (rendered_layer fs card r) position r))
      :: card_files fs (S start) drawn' orientations'
  | _, _ => []
  end.

(** Asset directories for trying the renderers: an empty one, and one
    whose files are there but cannot be read as images. *)
Definition no_assets : Assets :=
  {| path_exists := fun _ => false; file_readable := fun _ => false;
     image_open_ok := fun _ => false; image_load_ok := fun _ => false |}.

Definition unreadable_assets : Assets :=
  {| path_exists := fun _ => true; file_readable := fun _ => true;
     image_open_ok := fun _ => false; image_load_ok := fun _ => false |}.

(** The raw draw that makes [random.choice([True, False])] return [b]. *)
Definition raw_of_flip (b : bool) : nat := if b then 0 else 1.

(** A source whose first [n] raw draws are 0, 1, ..., [n - 1], whose next
    draws flip [image_flips] and whose draws after those flip
    [text_flips]. *)
Definition scripted_rng (n : nat) (image_flips text_flips : list bool) : rng :=
  {| tape := fun i =>
       if Nat.ltb i n then i
       else if Nat.ltb i (2 * n) then raw_of_flip (nth (i - n) image_flips false)
       else raw_of_flip (nth (i - 2 * n) text_flips false);
     cursor := 0;
     patience := 0 |}.




(* ================================================================== *)
(** ** The commands [!daily] and [!cards] *)
(* ================================================================== *)

(** Each of these two commands answers with one embed, in a colour no
    other command uses; their embeds, and the channel they are sent to,
    are kept as types of their own. *)
Inductive DeckColor : Type := dark_blue | dark_green.

Record DeckEmbed : Type := {
  deck_title : string;
  deck_description : option string;
  deck_color : DeckColor;
  deck_fields : list EmbedField;
  deck_footer : option string
}.

(** [embed.add_field(name=..., value=..., inline=...)]. *)
Definition deck_add_field (e : DeckEmbed) (n v : string) (inline : bool)
  : DeckEmbed :=
  {| deck_title := deck_title e;
     deck_description := deck_description e;
     deck_color := deck_color e;
     deck_fields := (deck_fields e ++ [ {| field_name := n; field_value := v;
                                            field_inline := inline |} ])%list;
     deck_footer := deck_footer e |}.

(** [embed.set_footer(text=...)]. *)
Definition deck_set_footer (e : DeckEmbed) (t : string) : DeckEmbed :=
  {| deck_title := deck_title e;
     deck_description := deck_description e;
     deck_color := deck_color e;
     deck_fields := deck_fields e;
     deck_footer := Some t |}.

(** The random source and the embeds sent so far, oldest first. *)
Record Channel : Type := { chan_rand : rng; chan_sent : list DeckEmbed }.

(** [ctx.send(embed=e)]. *)
Definition post (e : DeckEmbed) : Py Channel unit :=
  fun ch => (Returned tt,
             {| chan_rand := chan_rand ch;
                chan_sent := (chan_sent ch ++ [e])%list |}).

Definition chan_random {A} (c : Py rng A) : Py Channel A :=
  fun ch => let (r, g) := c (chan_rand ch) in
            (r, {| chan_rand := g; chan_sent := chan_sent ch |}).

(** The [!daily] command; [author] stands for [ctx.author.display_name]. *)
Definition daily_draw (tarot_cards : list Card) (author : string)
  : Py Channel unit :=
  card <- chan_random (random.choice tarot_cards) ;;
  is_reversed <- chan_random (random.choice [true; false]) ;;
  let meaning := if is_reversed then meaning_rev card else meaning_up card in
  let orientation := if is_reversed then "Reversed 🔄" else "Upright ⬆️" in
  let embed :=
    {| deck_title := "📅 Your Daily Tarot Card";
       deck_description :=
         Some ("**" ++ name card ++ "** (" ++ orientation ++ ")");
       deck_color := dark_blue;
       deck_fields := [];
       deck_footer := None |} in
  let embed := deck_add_field embed "Message for Today" meaning false in
  let embed :=
    deck_add_field embed "Keywords" (join ", " (keywords card)) false in
  let advice :=
    if is_reversed
    then "This card reversed suggests you may need to reconsider this area of your life."
    else "This card upright is a positive sign. Embrace its energy today." in
  let embed := deck_add_field embed "Advice" advice false in
  let embed := deck_set_footer embed ("For " ++ author) in
  post embed.

(** [c['arcana'] == a]. *)
Definition arcana_is (a : string) (c : Card) : bool := String.eqb (arcana c) a.

(** [c['suit'] == s]. *)
Definition suit_is (s : string) (c : Card) : bool :=
  match suit c with
  | Some t => String.eqb t s
  | None => false
  end.

(** The elements of the generator [c['suit'] for c in cs if c['suit']]. *)
Definition truthy_suits (cs : list Card) : list string :=
  flat_map (fun c => match suit c with
                     | Some s => if truthy s then [s] else []
                     | None => []
                     end) cs.

(** The [!cards] command.  A Python set is iterated in an order of its
    own: [set_iter] stands for building the set from the elements it is
    given and iterating over it. *)
Definition list_cards (set_iter : list string -> list string)
    (tarot_cards : list Card) : Py Channel unit :=
  let major_cards := filter (arcana_is "major") tarot_cards in
  let minor_cards := filter (arcana_is "minor") tarot_cards in
  let embed :=
    {| deck_title := "🃏 Tarot Deck Contents";
       deck_description := None;
       deck_color := dark_green;
       deck_fields := [];
       deck_footer := None |} in
  let embed :=
    deck_add_field embed "Major Arcana (22 cards)"
      (join nl (map (fun c => format_number (number c) ++ ". " ++ name c)
                    major_cards))
      true in
  let suits := set_iter (truthy_suits minor_cards) in
  let embed :=
    fold_left
      (fun embed suit =>
         let suit_cards := filter (suit_is suit) minor_cards in
         deck_add_field embed (title suit ++ " (14 cards)")
           (join nl (map name (firstn 10 suit_cards)))
           true)
      suits embed in
  let embed :=
    deck_set_footer embed
      ("Total: " ++ of_nat (List.length tarot_cards) ++ " cards") in
  post embed.

(** A set iteration: every element once, in some order. *)
Definition iterates_a_set (set_iter : list string -> list string) : Prop :=
  forall l, NoDup (set_iter l) /\ forall x, In x (set_iter l) <-> In x l.

(** The iteration that keeps the order of first occurrence. *)
Definition first_occurrence_order (l : list string) : list string :=
  rev (nodup string_dec (rev l)).

(** A channel nothing was sent to yet. *)
Definition fresh_channel (g : rng) : Channel := {| chan_rand := g; chan_sent := [] |}.

(* ================================================================== *)
(** ** The command [!help] *)
(* ================================================================== *)

(** [commands_list], the local of [bot_help]. *)
Definition commands_list : list (string * string) :=
  [ ("!tarot [spread] [question]",
     "Get a tarot reading" ++ nl
     ++ "Spreads: single, three_card, celtic_cross, relationship, career");
    ("!tarot help", "Show available spreads");
    ("!card [name]", "Get information about a specific card");
    ("!cards", "List all tarot cards in the deck");
    ("!daily", "Get your daily tarot card");
    ("!help", "Show this help menu") ].

Definition bot_help : Py Bot unit :=
  let embed :=
    {| embed_title := "🔮 Tarot Reading Bot - Help Guide";
       embed_description :=
         Some "A spiritual guide to your questions through tarot cards";
       embed_color := dark_purple;
       embed_fields := [];
       embed_footer := None |} in
  let embed :=
    fold_left (fun embed (entry : string * string) =>
                 let (cmd, desc) := entry in add_field embed cmd desc false)
              commands_list embed in
  let embed :=
    add_field embed "📚 How to Use"
      ("1. Use `!tarot three_card` for a simple reading" ++ nl
       ++ "2. Add your question: `!tarot career What path should I take?`" ++ nl
       ++ "3. The bot will send both text interpretation and card images")
      false in
  let embed :=
    set_footer embed
      "Remember: Tarot is a guide, not destiny. Trust your intuition." in
  send (SendEmbed embed).

(* ================================================================== *)
(** ** More descriptions used in the statements *)
(* ================================================================== *)

(** The file name a message carries, if it carries a file. *)
Definition message_filename (m : Message) : option string :=
  match m with
  | SendFile filename _ => Some filename
  | _ => None
  end.

(** The part of an asset's file name that comes from the card's name. *)
Definition asset_stem (card : Card) : string :=
  replace " " "_" (lower (name card)).

(** The characters of a string. *)
Fixpoint chars (s : string) : list ascii :=
  match s with
  | EmptyString => []
  | String c s' => c :: chars s'
  end.

(** Two ASCII characters are the same character, or the same letter in
    its two cases. *)
Definition same_letter (a b : ascii) : bool :=
  let x := nat_of_ascii a in
  let y := nat_of_ascii b in
  Nat.eqb x y
  || (is_upper a && Nat.eqb y (x + 32))
  || (is_upper b && Nat.eqb x (y + 32)).

Fixpoint same_letters (s t : string) : bool :=
  match s, t with
  | EmptyString, EmptyString => true
  | String a s', String b t' => same_letter a b && same_letters s' t'
  | _, _ => false
  end.

(** The query occurs inside the name, letter case aside. *)
Definition occurs_ignoring_case (query name : string) : Prop :=
  exists before middle after,
    name = before ++ middle ++ after /\ same_letters query middle = true.

(** The names of the fields of a card's embed. *)
Definition card_field_names (card : Card) : list string :=
  (["Number"; "Arcana"]
   ++ (match suit card with
       | Some s => if truthy s then ["Suit"] else []
       | None => []
       end)
   ++ ["Keywords"; "Upright Meaning"; "Reversed Meaning"])%list.

(** The values of the fields of a card's embed. *)
Definition card_field_values (card : Card) : list string :=
  ([format_number (number card); title (arcana card)]
   ++ (match suit card with
       | Some s => if truthy s then [title s] else []
       | None => []
       end)
   ++ [join ", " (keywords card); meaning_up card; meaning_rev card])%list.

(** The art message of the [!card] command: sent when the file exists and
    opens. *)
Definition art_messages (fs : Assets) (card : Card) : list Message :=
  let p := path_join "card_images" (card_filename card) in
  if path_exists fs p && file_readable fs p
  then [SendFile "tarot_card.jpg" (DiskFile p)]
  else [].

(** A deck of thirty cards and a minor suit of twelve, for trying the
    commands. *)
Definition numbered_card (a : string) (s : option string) (n : nat) : Card :=
  {| number := IntNumber (Z.of_nat n); name := "Card " ++ of_nat n;
     arcana := a; suit := s; keywords := []; meaning_up := "up";
     meaning_rev := "down" |}.


Definition twelve_wands : list Card :=
  map (numbered_card "minor" (Some "wands")) (seq 1 12).

End Program.

(* ================================================================== *)
(** ** Strings *)
(* ================================================================== *)

Section Properties.

Context {U : PyText}.

Lemma append_assoc (a b c : string) : (a ++ b) ++ c = a ++ (b ++ c).
Proof.
  induction a as [|x a IH]; simpl; [reflexivity | now rewrite IH].
Qed.

Lemma append_empty_r (a : string) : a ++ "" = a.
Proof.
  induction a as [|x a IH]; simpl; [reflexivity | now rewrite IH].
Qed.

Lemma append_cancel_l (a b c : string) : a ++ b = a ++ c -> b = c.
Proof.
  induction a as [|x a IH]; simpl; intros H; [exact H | ].
  injection H as H. now apply IH.
Qed.

Lemma prefix_iff (a b : string) :
  String.prefix a b = true <-> exists rest, b = a ++ rest.
Proof.
  revert b. induction a as [|x a IH]; intros b.
  - split; [intros _; now exists b | intros _; now destruct b].
  - destruct b as [|y b]; simpl.
    + split; [discriminate | intros [rest H]; discriminate].
    + destruct (ascii_dec x y) as [->|Hxy].
      * rewrite IH. split; intros [rest H]; exists rest.
        -- now rewrite H.
        -- now injection H.
      * split; [discriminate | intros [rest H]; injection H as H1 _; congruence].
Qed.

(** [contains] decides occurrence as a substring. *)
Lemma contains_iff (needle haystack : string) :
  contains needle haystack = true <->
  exists before after, haystack = before ++ needle ++ after.
Proof.
  induction haystack as [|y h IH].
  - cbn [contains]. rewrite orb_false_r, prefix_iff. split.
    + intros [rest H]. exists "", rest. exact H.
    + intros [before [after H]]. destruct before; simpl in H.
      * now exists after.
      * discriminate.
  - cbn [contains]. rewrite orb_true_iff, prefix_iff, IH. split.
    + intros [[rest H] | [before [after H]]].
      * exists "", rest. exact H.
      * exists (String y before), after. simpl. now rewrite H.
    + intros [before [after H]]. destruct before as [|z before]; simpl in H.
      * left. now exists after.
      * right. injection H as _ H. now exists before, after.
Qed.

(* ================================================================== *)
(** ** The random source *)
(* ================================================================== *)

Lemma skip_0 (g : rng) : skip 0 g = g.
Proof.
  destruct g as [t c]. unfold skip. simpl. now rewrite Nat.add_0_r.
Qed.

Lemma skip_skip (a b : nat) (g : rng) : skip a (skip b g) = skip (b + a) g.
Proof.
  unfold skip. simpl. now rewrite Nat.add_assoc.
Qed.

Lemma randbelow_run (n : nat) (g : rng) :
  random.randbelow n g = (Returned (tape g (cursor g) mod n), skip 1 g).
Proof.
  unfold random.randbelow, skip. now rewrite Nat.add_1_r.
Qed.

(** A coin flip never raises; it reads one raw draw. *)
Lemma coin_run (g : rng) :
  random.choice [true; false] g = (Returned (coin_at g 0), skip 1 g).
Proof.
  unfold random.choice, bind. rewrite randbelow_run.
  unfold coin_at. rewrite Nat.add_0_r. cbn [List.length].
  pose proof (Nat.mod_upper_bound (tape g (cursor g)) 2 ltac:(lia)) as Hlt.
  destruct (tape g (cursor g) mod 2) as [|[|r]]; [reflexivity | reflexivity | lia].
Qed.

Lemma coin_at_skip (g : rng) (n i : nat) : coin_at (skip n g) i = coin_at g (n + i).
Proof.
  unfold coin_at, skip. simpl. now rewrite Nat.add_assoc.
Qed.

Lemma flips_S (g : rng) (n : nat) :
  flips g (S n) = coin_at g 0 :: flips (skip 1 g) n.
Proof.
  unfold flips. simpl. f_equal. rewrite <- seq_shift, map_map.
  apply map_ext. intros i. now rewrite coin_at_skip.
Qed.

Lemma flips_length (g : rng) (n : nat) : List.length (flips g n) = n.
Proof.
  unfold flips. now rewrite length_map, length_seq.
Qed.

Lemma draw_orientations_run (n : nat) (g : rng) :
  draw_orientations n g = (Returned (flips g n), skip n g).
Proof.
  revert g. induction n as [|n IH]; intros g.
  - simpl. unfold ret. now rewrite skip_0.
  - cbn [draw_orientations]. unfold bind at 1. rewrite coin_run.
    unfold bind at 1. rewrite IH. unfold ret.
    now rewrite flips_S, skip_skip.
Qed.

(* ================================================================== *)
(** ** The text renderer, run *)
(* ================================================================== *)

Lemma string_concat_cons (x : string) (xs : list string) :
  String.concat "" (x :: xs) = x ++ String.concat "" xs.
Proof.
  destruct xs as [|y ys]; simpl; [now rewrite append_empty_r | reflexivity].
Qed.

(** One turn of the loop appends the section of its card, oriented by the
    coin it flips. *)
Lemma generate_reading_body_run (reading : string) (card : Card)
    (position : string) (g : rng) :
  generate_reading_body reading (card, position) g =
  (Returned (reading ++ section_text card position (coin_at g 0)), skip 1 g).
Proof.
  unfold generate_reading_body, bind. rewrite coin_run. unfold ret.
  f_equal. f_equal. unfold section_text, suit_line, orientation_label.
  destruct (suit card) as [s|]; [destruct (truthy s) | ];
    destruct (coin_at g 0); repeat rewrite append_assoc; reflexivity.
Qed.

Lemma for_fold_generate_reading (items : list (Card * string)) :
  forall (reading : string) (g : rng),
    for_fold items generate_reading_body reading g =
    (Returned (reading
               ++ String.concat "" (sections items (flips g (List.length items)))),
     skip (List.length items) g).
Proof.
  induction items as [|[card position] items IH]; intros reading g.
  - simpl. unfold ret. now rewrite append_empty_r, skip_0.
  - cbn [for_fold List.length]. unfold bind.
    rewrite generate_reading_body_run, IH, flips_S, skip_skip.
    unfold sections. cbn [combine map]. fold (sections items (flips (skip 1 g) (List.length items))).
    now rewrite string_concat_cons, append_assoc.
Qed.

(** The renderer returns the header, the question line and the sections of
    [zip(cards, positions)], each oriented by a coin it flips itself. *)
Lemma generate_reading_run (self : TarotReading) (g : rng) :
  let drawn := combine (cards self) (positions self) in
  generate_reading self g =
  (Returned (reading_text (spread_type self) (question self) drawn
                          (flips g (List.length drawn))),
   skip (List.length drawn) g).
Proof.
  intros drawn. unfold generate_reading. fold drawn.
  rewrite for_fold_generate_reading. unfold reading_text, header_text, question_line.
  f_equal. f_equal.
  destruct (question self) as [q|]; [destruct (truthy q) | ];
    repeat rewrite append_assoc; try reflexivity.
Qed.

(* ================================================================== *)
(** ** Sampling without replacement *)
(* ================================================================== *)

Lemma nth_error_in_range {A} (l : list A) (i : nat) :
  i < List.length l -> exists x, nth_error l i = Some x.
Proof.
  intros Hi. destruct (nth_error l i) as [x|] eqn:H; [now exists x | ].
  apply nth_error_None in H. lia.
Qed.

Section Sampling.

Context {A : Type}.

Lemma set_item_length (pool : list A) (j : nat) (v : A) :
  List.length (random.set_item pool j v) = List.length pool.
Proof.
  revert j. induction pool as [|x pool IH]; intros [|j]; simpl; auto.
Qed.

Lemma firstn_snoc (l : list A) (n : nat) (y : A) :
  nth_error l n = Some y -> firstn (S n) l = (firstn n l ++ [y])%list.
Proof.
  revert l. induction n as [|n IH]; intros [|x l] H; try discriminate.
  - simpl in H. injection H as ->. reflexivity.
  - simpl in H.
    change (x :: firstn (S n) l = x :: (firstn n l ++ [y])%list).
    now rewrite (IH l H).
Qed.

(** One turn of the selection loop takes the picked entry out of the
    available ones and keeps all the others. *)
Lemma selection_step (j : nat) :
  forall (pool : list A) (m : nat) (picked last : A),
    j < m ->
    nth_error pool j = Some picked ->
    nth_error pool (m - 1) = Some last ->
    Permutation (firstn m pool)
                (picked :: firstn (m - 1) (random.set_item pool j last)).
Proof.
  induction j as [|j IH]; intros [|x pool] m picked last Hj Hp Hl;
    try discriminate.
  - simpl in Hp. injection Hp as ->.
    destruct m as [|[|m]]; [lia | reflexivity | ].
    change (S (S m) - 1) with (S m) in *. cbn [nth_error] in Hl.
    change (Permutation (picked :: firstn (S m) pool)
                        (picked :: last :: firstn m pool)).
    apply perm_skip. rewrite (firstn_snoc pool m last Hl).
    apply Permutation_sym, Permutation_cons_append.
  - simpl in Hp.
    destruct m as [|[|m]]; [lia | lia | ].
    change (S (S m) - 1) with (S m) in *. cbn [nth_error] in Hl.
    change (Permutation
              (x :: firstn (S m) pool)
              (picked :: x :: firstn m (random.set_item pool j last))).
    eapply perm_trans; [ | apply perm_swap ]. apply perm_skip.
    specialize (IH pool (S m) picked last ltac:(lia) Hp).
    change (S m - 1) with (m - 0) in IH. rewrite Nat.sub_0_r in IH.
    now apply IH.
Qed.

(** The loop returns [k] entries after [k] raw draws; with the entries it
    leaves behind they are a rearrangement of the available ones. *)
Lemma sample_loop_run (k : nat) :
  forall (pool : list A) (m : nat) (g : rng),
    k <= m -> m <= List.length pool ->
    exists picked,
      random.sample_loop pool m k g = (Returned picked, skip k g)
      /\ List.length picked = k
      /\ exists left, Permutation (picked ++ left) (firstn m pool).
Proof.
  induction k as [|k IH]; intros pool m g Hk Hm.
  - exists []. simpl. unfold ret. rewrite skip_0.
    repeat split. now exists (firstn m pool).
  - cbn [random.sample_loop]. unfold bind at 1. rewrite randbelow_run.
    set (j := tape g (cursor g) mod m).
    assert (Hj : j < m) by (apply Nat.mod_upper_bound; lia).
    destruct (nth_error pool j) as [x|] eqn:Hx;
      [ | apply nth_error_None in Hx; lia ].
    destruct (nth_error pool (m - 1)) as [y|] eqn:Hy;
      [ | apply nth_error_None in Hy; lia ].
    destruct (IH (random.set_item pool j y) (m - 1) (skip 1 g))
      as [rest [Hrun [Hlen [left Hperm]]]];
      [ lia | rewrite set_item_length; lia | ].
    exists (x :: rest). unfold bind. rewrite Hrun. unfold ret.
    rewrite skip_skip. repeat split.
    + simpl. now rewrite Hlen.
    + exists left. simpl.
      eapply perm_trans; [ apply perm_skip, Hperm | ].
      apply Permutation_sym. now apply selection_step.
Qed.

(** [random.sample] on a population that is too small. *)
Lemma sample_too_large (population : list A) (k : nat) (g : rng) :
  List.length population < k ->
  random.sample population k g =
  (Raised (ValueError "Sample larger than population or is negative"), g).
Proof.
  intros Hk. unfold random.sample.
  destruct (Nat.ltb_spec (List.length population) k) as [_|Hle]; [ | lia].
  reflexivity.
Qed.

(** [random.sample] on a population that is at most [setsize] long: the
    pool loop, which reads [k] raw draws and always returns. *)
Lemma sample_pool_run (population : list A) (k : nat) (g : rng) :
  k <= List.length population ->
  List.length population <= random.setsize k ->
  exists picked,
    random.sample population k g = (Returned picked, skip k g)
    /\ List.length picked = k
    /\ exists left, Permutation (picked ++ left) population.
Proof.
  intros Hk Hpool. unfold random.sample.
  destruct (Nat.ltb_spec (List.length population) k) as [Hlt|_]; [lia | ].
  destruct (Nat.leb_spec (List.length population) (random.setsize k))
    as [_|Hgt]; [ | lia].
  destruct (sample_loop_run k population (List.length population) g Hk (le_n _))
    as [picked [Hrun [Hlen [left Hperm]]]].
  exists picked. repeat split; auto.
  exists left. now rewrite firstn_all in Hperm.
Qed.

Lemma not_selected (j : nat) (selected : list nat) :
  existsb (Nat.eqb j) selected = false <-> ~ In j selected.
Proof.
  split.
  - intros H Hin. assert (Ht : existsb (Nat.eqb j) selected = true).
    { apply existsb_exists. exists j. split; [exact Hin | apply Nat.eqb_refl]. }
    congruence.
  - intros H. destruct (existsb (Nat.eqb j) selected) eqn:E; [ | reflexivity].
    apply existsb_exists in E. destruct E as [x [Hx Heq]].
    apply Nat.eqb_eq in Heq. subst x. contradiction.
Qed.

(** The redraw loop ends with a position that was not selected before, or
    is left unfinished; it never raises. *)
Lemma redraw_loop_cases (n : nat) (selected : list nat) (fuel : nat) :
  forall (j : nat) (g : rng),
    0 < n -> j < n ->
    (exists d j',
        random.redraw_loop fuel n selected j g = (Returned j', skip d g)
        /\ j' < n /\ ~ In j' selected)
    \/ (exists d,
           random.redraw_loop fuel n selected j g = (Unfinished, skip d g)).
Proof.
  induction fuel as [|fuel IH]; intros j g Hn Hj; cbn [random.redraw_loop];
    destruct (existsb (Nat.eqb j) selected) eqn:Hsel.
  - right. exists 0. unfold unfinished. now rewrite skip_0.
  - left. exists 0, j. unfold ret. rewrite skip_0.
    repeat split; [exact Hj | now apply not_selected].
  - unfold bind. rewrite randbelow_run. cbv beta iota.
    destruct (IH (tape g (cursor g) mod n) (skip 1 g) Hn
                 (Nat.mod_upper_bound (tape g (cursor g)) n ltac:(lia)))
      as [[d [j' [Hrun Hj']]] | [d Hrun]]; rewrite Hrun, skip_skip.
    + left. exists (1 + d), j'. now split.
    + right. now exists (1 + d).
  - left. exists 0, j. unfold ret. rewrite skip_0.
    repeat split; [exact Hj | now apply not_selected].
Qed.

(** The loop over the set of selected positions returns [k] entries taken
    at pairwise distinct positions, none of them selected before, or is
    left unfinished in a redraw; it never raises. *)
Lemma sample_set_loop_cases (population : list A) (k : nat) :
  forall (selected : list nat) (g : rng),
    0 < List.length population ->
    (exists picked js d,
        random.sample_set_loop population (List.length population) selected k g
        = (Returned picked, skip d g)
        /\ List.length picked = k
        /\ Forall2 (fun x j => nth_error population j = Some x) picked js
        /\ NoDup js
        /\ (forall j, In j js -> ~ In j selected))
    \/ (exists d,
           random.sample_set_loop population (List.length population) selected k g
           = (Unfinished, skip d g)).
Proof.
  set (n := List.length population).
  induction k as [|k IH]; intros selected g Hn.
  - left. exists [], [], 0. cbn [random.sample_set_loop]. unfold ret.
    rewrite skip_0.
    split; [reflexivity | split; [reflexivity | split; [constructor | split]]];
      [constructor | intros j []].
  - cbn [random.sample_set_loop]. unfold bind, random.redraw.
    rewrite randbelow_run. cbv beta iota.
    destruct (redraw_loop_cases n selected (patience (skip 1 g))
                (tape g (cursor g) mod n) (skip 1 g) Hn
                (Nat.mod_upper_bound (tape g (cursor g)) n ltac:(lia)))
      as [[d [j [Hrun [Hj Hfresh]]]] | [d Hrun]];
      rewrite Hrun, skip_skip; cbv beta iota.
    + destruct (nth_error_in_range population j Hj) as [x Hx]. rewrite Hx.
      destruct (IH (j :: selected) (skip (1 + d) g) Hn)
        as [[picked [js [d' [Hrest [Hlen [Hpos [Hnd Hdis]]]]]]] | [d' Hrest]];
        rewrite Hrest, skip_skip; cbv beta iota.
      * left. exists (x :: picked), (j :: js), (1 + d + d'). unfold ret.
        split; [reflexivity | split; [ | split; [ | split]]].
        -- cbn [List.length]. now rewrite Hlen.
        -- constructor; assumption.
        -- constructor; [ | exact Hnd]. intros Hin.
           apply (Hdis j Hin). now left.
        -- intros j0 [<- | Hin]; [exact Hfresh | ].
           intros Hsel. apply (Hdis j0 Hin). now right.
      * right. now exists (1 + d + d').
    + right. now exists (1 + d).
Qed.

Lemma map_nth_seq (l : list A) (d : A) :
  map (fun i => nth i l d) (seq 0 (List.length l)) = l.
Proof.
  induction l as [|x l IH]; [reflexivity | ].
  cbn [List.length seq map nth]. f_equal.
  rewrite <- seq_shift, map_map. exact IH.
Qed.

(** Entries taken at pairwise distinct positions of a list are taken
    without replacement. *)
Lemma distinct_positions (population picked : list A) (js : list nat) :
  Forall2 (fun x j => nth_error population j = Some x) picked js ->
  NoDup js ->
  exists left, Permutation (picked ++ left) population.
Proof.
  intros Hpos Hnd. destruct population as [|d0 population'] eqn:Hpop.
  - inversion Hpos as [|x j ? ? Hx _]; subst.
    + exists []. constructor.
    + now destruct j.
  - rewrite <- Hpop in *. set (n := List.length population).
    set (others := filter (fun i => negb (existsb (Nat.eqb i) js)) (seq 0 n)).
    assert (Hin : forall j, In j js -> j < n).
    { intros j Hj. clear - Hpos Hj. induction Hpos as [|x j0 ? ? Hx _ IH].
      - contradiction.
      - destruct Hj as [<- | Hj]; [ | now apply IH].
        apply nth_error_Some. congruence. }
    assert (Hperm : Permutation (js ++ others) (seq 0 n)).
    { apply NoDup_Permutation.
      - apply NoDup_app; [exact Hnd | apply NoDup_filter, seq_NoDup | ].
        intros j Hj Ho. unfold others in Ho. apply filter_In in Ho.
        destruct Ho as [_ Ho]. apply negb_true_iff, not_selected in Ho.
        contradiction.
      - apply seq_NoDup.
      - intros j. rewrite in_app_iff, in_seq. unfold others.
        rewrite filter_In, in_seq, negb_true_iff, not_selected. split.
        + intros [Hj | [Hj _]]; [specialize (Hin j Hj) | ]; lia.
        + intros Hj. destruct (in_dec Nat.eq_dec j js); [now left | right].
          split; [lia | assumption]. }
    apply (Permutation_map (fun i => nth i population d0)) in Hperm.
    rewrite map_app in Hperm. unfold n in Hperm. rewrite map_nth_seq in Hperm.
    exists (map (fun i => nth i population d0) others).
    replace picked with (map (fun i => nth i population d0) js); [exact Hperm | ].
    clear - Hpos. induction Hpos as [|x j ? ? Hx _ IH]; [reflexivity | ].
    cbn [map]. rewrite IH. f_equal. now apply nth_error_nth.
Qed.

(** [random.sample] on a population that is large enough: it returns [k]
    entries taken without replacement, or, in the loop over the set of
    selected positions, is left unfinished in a redraw; it never raises. *)
Lemma sample_cases (population : list A) (k : nat) (g : rng) :
  k <= List.length population ->
  (exists picked d,
      random.sample population k g = (Returned picked, skip d g)
      /\ List.length picked = k
      /\ exists left, Permutation (picked ++ left) population)
  \/ (exists d,
         random.sample population k g = (Unfinished, skip d g)
         /\ random.setsize k < List.length population).
Proof.
  intros Hk.
  destruct (Nat.leb_spec (List.length population) (random.setsize k))
    as [Hpool|Hset].
  - left. destruct (sample_pool_run population k g Hk Hpool)
      as [picked [Hrun Hrest]].
    now exists picked, k.
  - unfold random.sample.
    destruct (Nat.ltb_spec (List.length population) k) as [Hlt|_]; [lia | ].
    destruct (Nat.leb_spec (List.length population) (random.setsize k))
      as [Hle|_]; [lia | ].
    assert (Hn : 0 < List.length population) by lia.
    destruct (sample_set_loop_cases population k [] g Hn)
      as [[picked [js [d [Hrun [Hlen [Hpos [Hnd _]]]]]]] | [d Hrun]].
    + left. exists picked, d. split; [exact Hrun | split; [exact Hlen | ]].
      exact (distinct_positions population picked js Hpos Hnd).
    + right. exists d. now split.
Qed.

Lemma redraw_loop_fresh (fuel n : nat) (selected : list nat) (j : nat)
    (g : rng) :
  ~ In j selected ->
  random.redraw_loop fuel n selected j g = (Returned j, g).
Proof.
  intros Hfresh. apply not_selected in Hfresh.
  destruct fuel; cbn [random.redraw_loop]; now rewrite Hfresh.
Qed.

(** On a source whose next [k] raw draws are [base], [base + 1], ..., the
    loop over the set of selected positions never redraws. *)
Lemma sample_set_loop_counting (population : list A) (k : nat) :
  forall (selected : list nat) (g : rng) (base : nat),
    (forall i, i < k ->
               tape g (cursor g + i) mod List.length population = base + i) ->
    (forall j, In j selected -> j < base) ->
    base + k <= List.length population ->
    exists picked,
      random.sample_set_loop population (List.length population) selected k g
      = (Returned picked, skip k g)
      /\ List.length picked = k.
Proof.
  set (n := List.length population).
  induction k as [|k IH]; intros selected g base Hcells Hsel Hfit.
  - exists []. cbn [random.sample_set_loop]. unfold ret. now rewrite skip_0.
  - cbn [random.sample_set_loop]. unfold bind, random.redraw.
    rewrite randbelow_run. cbv beta iota.
    pose proof (Hcells 0 ltac:(lia)) as H0. rewrite !Nat.add_0_r in H0.
    rewrite H0, redraw_loop_fresh; [ | intros Hin; specialize (Hsel _ Hin); lia].
    cbv beta iota.
    destruct (nth_error_in_range population base ltac:(fold n; lia)) as [x Hx].
    rewrite Hx.
    destruct (IH (base :: selected) (skip 1 g) (S base)) as [picked [Hrun Hlen]].
    + intros i Hi. cbn [skip tape cursor].
      replace (cursor g + 1 + i) with (cursor g + S i) by lia.
      rewrite (Hcells (S i)) by lia. lia.
    + intros j [<- | Hin]; [lia | ]. specialize (Hsel _ Hin). lia.
    + lia.
    + rewrite Hrun, skip_skip. cbv beta iota. unfold ret.
      exists (x :: picked). split; [reflexivity | ]. cbn [List.length].
      now rewrite Hlen.
Qed.

(** [random.sample] on a source whose next [k] raw draws are 0, 1, ...,
    [k - 1]: [k] raw draws are read, on either path. *)
Lemma sample_counting (population : list A) (k : nat) (g : rng) :
  k <= List.length population ->
  (forall i, i < k -> tape g (cursor g + i) = i) ->
  exists picked,
    random.sample population k g = (Returned picked, skip k g)
    /\ List.length picked = k.
Proof.
  intros Hk Hcells.
  destruct (Nat.leb_spec (List.length population) (random.setsize k))
    as [Hpool|Hset].
  - destruct (sample_pool_run population k g Hk Hpool)
      as [picked [Hrun [Hlen _]]].
    now exists picked.
  - unfold random.sample.
    destruct (Nat.ltb_spec (List.length population) k) as [Hlt|_]; [lia | ].
    destruct (Nat.leb_spec (List.length population) (random.setsize k))
      as [Hle|_]; [lia | ].
    apply (sample_set_loop_counting population k [] g 0).
    + intros i Hi. rewrite (Hcells i Hi). apply Nat.mod_small. lia.
    + intros j [].
    + lia.
Qed.






End Sampling.


(* ================================================================== *)
(** ** The image renderer, run *)
(* ================================================================== *)

(** [create_card_image] returns, whatever the asset directory answers: the
    pasted art when every step succeeds, the bare background when a step
    raises, the placeholder when there is no file; then the captions. *)
Lemma create_card_image_run (fs : Assets) (card : Card) (position : string)
    (is_reversed : bool) :
  create_card_image fs card position is_reversed =
  Returned (card_png (rendered_layer fs card is_reversed) position is_reversed).
Proof.
  unfold create_card_image, create_card_image_on_canvas, rendered_layer,
    card_png, art_ops, placeholder_ops, caption_ops.
  remember (path_join "card_images" (card_filename card)) as p eqn:Hp.
  unfold bind, try_except_pass, PIL.open, PIL.rotate, PIL.resize, ret, raise.
  destruct (path_exists fs p); [ | reflexivity].
  destruct (image_open_ok fs p); [ | reflexivity].
  destruct is_reversed; destruct (image_load_ok fs p) eqn:Hload;
    do 2 (cbn [picture_source]; rewrite ?Hload); reflexivity.
Qed.

(* ================================================================== *)
(** ** The [!tarot] command, run *)
(* ================================================================== *)

(** The loop that renders and sends one image per drawn card, in order. *)
Lemma send_card_files (fs : Assets) (drawn : list (Card * string)) :
  forall (start : nat) (done todo : list bool) (b : Bot),
    List.length done = start ->
    List.length drawn <= List.length todo ->
    for_each (enumerate_from start drawn)
      (fun '(i, (card, position)) =>
         is_reversed <- list_item (done ++ todo)%list i ;;
         img_bytes <- lift_outcome
                        (create_card_image fs card position is_reversed) ;;
         send (SendFile ("card_" ++ of_nat (i + 1) ++ ".png")
                        (PngBytes img_bytes))) b =
    (Returned tt,
     {| rand := rand b;
        sent := (sent b ++ card_files fs start drawn todo)%list |}).
Proof.
  induction drawn as [|[card position] drawn IH];
    intros start done todo b Hdone Hlen.
  - simpl. unfold ret. rewrite app_nil_r. now destruct b.
  - destruct todo as [|r todo]; [simpl in Hlen; lia | ].
    cbn [enumerate_from for_each]. unfold bind at 1. unfold bind at 1.
    unfold list_item.
    rewrite nth_error_app2 by lia.
    replace (start - List.length done) with 0 by lia.
    cbn [nth_error]. unfold ret at 1. unfold bind at 1.
    unfold lift_outcome. rewrite create_card_image_run. unfold send at 1.
    replace (done ++ r :: todo)%list with ((done ++ [r]) ++ todo)%list
      by (now rewrite <- app_assoc).
    rewrite (IH (S start) (done ++ [r])%list todo).
    + cbn [rand sent card_files]. now rewrite <- app_assoc.
    + rewrite length_app. simpl. lia.
    + simpl in Hlen. lia.
Qed.

(** A reading for a spread of the catalogue, once the cards are sampled:
    the next [n] raw draws orient the images, the [n] after them orient the
    text. *)
Lemma tarot_reading_run (fs : Assets) (deck : list Card) (author spread : string)
    (q : option string) (ps : list string) (b : Bot) (picked : list Card)
    (g1 : rng) :
  dict_get SPREADS spread = Some ps ->
  random.sample deck (List.length ps) (rand b) = (Returned picked, g1) ->
  List.length picked = List.length ps ->
  let n := List.length ps in
  tarot_reading fs deck author spread q b =
  (Returned tt,
   {| rand := skip (2 * n) g1;
      sent :=
        (sent b
         ++ SendEmbed
              (reading_embed author spread q
                 (reading_text spread q (combine picked ps)
                    (flips (skip n g1) n)))
         :: card_files fs 0 (combine picked ps) (flips g1 n))%list |}).
Proof.
  intros Hspread Hsample Hlen n. fold n in Hsample, Hlen.
  assert (Hcomb : List.length (combine picked ps) = n)
    by (rewrite length_combine; fold n; lia).
  unfold tarot_reading. rewrite Hspread. fold n.
  unfold bind at 1. unfold with_random at 1. rewrite Hsample. cbn [rand sent].
  unfold bind at 1. unfold with_random at 1. cbn [rand sent].
  rewrite draw_orientations_run.
  unfold bind at 1. unfold with_random at 1. cbn [rand sent].
  rewrite generate_reading_run. unfold TarotReading_init.
  cbn [cards positions spread_type question]. rewrite Hspread, Hcomb, skip_skip.
  unfold bind at 1. unfold send at 1. cbn [rand sent].
  unfold enumerate.
  rewrite (send_card_files fs (combine picked ps) 0 [] (flips g1 n));
    [ | reflexivity | rewrite flips_length; lia ].
  cbn [rand sent].
  replace (n + n) with (2 * n) by lia.
  f_equal. f_equal. rewrite <- app_assoc. f_equal. cbn [app]. f_equal. f_equal.
  unfold reading_embed, set_footer, add_field.
  destruct q as [s|]; [destruct (truthy s) | ]; reflexivity.
Qed.

(** A reading whose sampling is left unfinished: nothing is sent. *)
Lemma tarot_reading_unfinished (fs : Assets) (deck : list Card)
    (author spread : string) (q : option string) (ps : list string) (b : Bot)
    (g1 : rng) :
  dict_get SPREADS spread = Some ps ->
  random.sample deck (List.length ps) (rand b) = (Unfinished, g1) ->
  tarot_reading fs deck author spread q b
  = (Unfinished, {| rand := g1; sent := sent b |}).
Proof.
  intros Hspread Hsample. unfold tarot_reading. rewrite Hspread.
  unfold bind at 1. unfold with_random at 1. now rewrite Hsample.
Qed.

(* ================================================================== *)
(** ** Card lookup *)
(* ================================================================== *)

Lemma name_matches_iff (query : string) (card : Card) :
  contains (lower query) (lower (name card)) = true <-> name_matches query card.
Proof.
  unfold name_matches. apply contains_iff.
Qed.

(** [find_card] returns the first card of the deck that matches. *)
Lemma find_card_Some (deck : list Card) (query : string) (card : Card) :
  find_card deck query = Some card <->
  exists before after,
    deck = (before ++ card :: after)%list
    /\ name_matches query card
    /\ forall c, In c before -> ~ name_matches query c.
Proof.
  unfold find_card. induction deck as [|c deck IH]; cbn [find].
  - split; [discriminate | ].
    intros [before [after [H _]]]. now destruct before.
  - destruct (contains (lower query) (lower (name c))) eqn:Hc.
    + split.
      * intros H. injection H as <-. exists [], deck.
        repeat split; [now apply name_matches_iff | intros ? []].
      * intros [[|c' before] [after [Hdeck [Hm Hfirst]]]].
        -- now injection Hdeck as ->.
        -- injection Hdeck as <- _. exfalso.
           apply (Hfirst c (or_introl eq_refl)). now apply name_matches_iff.
    + rewrite IH. split.
      * intros [before [after [Hdeck [Hm Hfirst]]]].
        exists (c :: before), after. repeat split; [now rewrite Hdeck | exact Hm | ].
        intros c' [<- | Hin]; [ | now apply Hfirst].
        rewrite <- name_matches_iff, Hc. discriminate.
      * intros [[|c' before] [after [Hdeck [Hm Hfirst]]]].
        -- injection Hdeck as -> _. apply name_matches_iff in Hm. congruence.
        -- injection Hdeck as _ ->. exists before, after.
           repeat split; auto. intros c0 Hin. apply Hfirst. now right.
Qed.

Lemma find_card_None (deck : list Card) (query : string) :
  find_card deck query = None <->
  forall c, In c deck -> ~ name_matches query c.
Proof.
  unfold find_card. induction deck as [|c deck IH]; cbn [find].
  - split; [intros _ ? [] | reflexivity].
  - destruct (contains (lower query) (lower (name c))) eqn:Hc.
    + split; [discriminate | ]. intros H. exfalso.
      apply (H c (or_introl eq_refl)). now apply name_matches_iff.
    + rewrite IH. split.
      * intros H c' [<- | Hin]; [ | now apply H].
        rewrite <- name_matches_iff, Hc. discriminate.
      * intros H c' Hin. apply H. now right.
Qed.

(* ================================================================== *)
(** ** Scripted random sources *)
(* ================================================================== *)

Lemma flips_scripted (l : list bool) :
  forall (off : nat) (g : rng),
    (forall i, i < List.length l -> coin_at g (off + i) = nth i l false) ->
    flips (skip off g) (List.length l) = l.
Proof.
  induction l as [|x l IH]; intros off g H; [reflexivity | ].
  cbn [List.length]. rewrite flips_S, coin_at_skip, skip_skip. f_equal.
  - apply (H 0). simpl. lia.
  - apply IH. intros i Hi.
    replace (off + 1 + i) with (off + S i) by lia.
    apply (H (S i)). simpl. lia.
Qed.

Lemma coin_of_raw (b : bool) : Nat.eqb (raw_of_flip b mod 2) 0 = b.
Proof. now destruct b. Qed.

Lemma scripted_image_flips (n : nat) (image_flips text_flips : list bool) :
  List.length image_flips = n ->
  flips (skip n (scripted_rng n image_flips text_flips)) n = image_flips.
Proof.
  intros <-. set (n := List.length image_flips).
  apply flips_scripted. fold n. intros i Hi. unfold coin_at, scripted_rng.
  cbn [tape cursor Nat.add].
  destruct (Nat.ltb_spec (n + i) n); [lia | ].
  destruct (Nat.ltb_spec (n + i) (2 * n)); [ | lia].
  replace (n + i - n) with i by lia. apply coin_of_raw.
Qed.

Lemma scripted_text_flips (n : nat) (image_flips text_flips : list bool) :
  List.length text_flips = n ->
  flips (skip (2 * n) (scripted_rng n image_flips text_flips)) n = text_flips.
Proof.
  intros <-. set (n := List.length text_flips).
  apply flips_scripted. fold n. intros i Hi. unfold coin_at, scripted_rng.
  cbn [tape cursor Nat.add].
  destruct (Nat.ltb_spec (2 * n + i) n); [lia | ].
  destruct (Nat.ltb_spec (2 * n + i) (2 * n)); [lia | ].
  replace (2 * n + i - 2 * n) with i by lia. apply coin_of_raw.
Qed.

(* ================================================================== *)
(** ** Sections of a rendered reading *)
(* ================================================================== *)

Lemma nth_error_combine {A B} (l1 : list A) (l2 : list B) :
  forall (i : nat) (a : A) (b : B),
    nth_error l1 i = Some a -> nth_error l2 i = Some b ->
    nth_error (combine l1 l2) i = Some (a, b).
Proof.
  revert l2. induction l1 as [|x l1 IH]; intros [|y l2] [|i] a b H1 H2;
    try discriminate; simpl in *.
  - congruence.
  - now apply IH.
Qed.

Lemma sections_length (drawn : list (Card * string)) (orientations : list bool) :
  List.length orientations = List.length drawn ->
  List.length (sections drawn orientations) = List.length drawn.
Proof.
  intros H. unfold sections. rewrite length_map, length_combine. lia.
Qed.

Lemma sections_nth (drawn : list (Card * string)) (orientations : list bool)
    (i : nat) (card : Card) (position : string) :
  List.length orientations = List.length drawn ->
  nth_error drawn i = Some (card, position) ->
  exists r,
    nth_error orientations i = Some r
    /\ nth_error (sections drawn orientations) i
       = Some (section_text card position r).
Proof.
  intros Hlen Hi.
  assert (Hlt : i < List.length orientations).
  { rewrite Hlen. apply nth_error_Some. congruence. }
  destruct (nth_error_in_range orientations i Hlt) as [r Hr].
  exists r. split; [exact Hr | ]. unfold sections.
  rewrite nth_error_map, (nth_error_combine drawn orientations i _ _ Hi Hr).
  reflexivity.
Qed.

Lemma question_line_empty (q : option string) :
  question_line q = "" <-> truthy_opt q = false.
Proof.
  unfold question_line, truthy_opt.
  destruct q as [s|]; [ | tauto].
  destruct (truthy s); split; try reflexivity; discriminate.
Qed.

(** The readings [!tarot] builds have as many cards as positions. *)
Lemma drawn_reading_balanced (picked : list Card) (spread : string)
    (q : option string) (ps : list string) :
  dict_get SPREADS spread = Some ps ->
  List.length picked = List.length ps ->
  List.length (cards (TarotReading_init picked spread q))
  = List.length (positions (TarotReading_init picked spread q)).
Proof.
  intros Hspread Hlen. unfold TarotReading_init. cbn [cards positions].
  now rewrite Hspread.
Qed.

(** Any reading with a card to show renders to two different texts under
    the source of all-0 raw draws and the source of all-1 raw draws. *)
Lemma generate_reading_two_texts (self : TarotReading) (card : Card)
    (position : string) (more_cards : list Card) (more_positions : list string) :
  cards self = card :: more_cards ->
  positions self = position :: more_positions ->
  fst (generate_reading self (constant_rng 0))
  <> fst (generate_reading self (constant_rng 1)).
Proof.
  intros Hc Hp.
  pose proof (generate_reading_run self (constant_rng 0)) as H0.
  pose proof (generate_reading_run self (constant_rng 1)) as H1.
  cbv zeta in H0, H1. rewrite H0, H1, Hc, Hp.
  cbn [combine List.length fst]. rewrite !flips_S.
  change (coin_at (constant_rng 0) 0) with true.
  change (coin_at (constant_rng 1) 0) with false.
  unfold reading_text, sections. cbn [combine map]. rewrite !string_concat_cons.
  unfold section_text, orientation_label.
  intros H. injection H as H.
  repeat first [ rewrite append_assoc in H
               | apply append_cancel_l in H
               | progress cbn [append] in H
               | injection H as H ].
  discriminate H.
Qed.


(* ================================================================== *)
(** ** Sampling a spread *)
(* ================================================================== *)


(** What a returned sample is: as many entries as asked for, taken without
    replacement. *)
Lemma sample_returned (deck : list Card) (k : nat) (g g' : rng)
    (picked : list Card) :
  k <= List.length deck ->
  random.sample deck k g = (Returned picked, g') ->
  List.length picked = k /\ exists left, Permutation (picked ++ left) deck.
Proof.
  intros Hk Hrun.
  destruct (sample_cases deck k g Hk)
    as [[picked' [d [Hrun' Hrest]]] | [d [Hrun' _]]];
    rewrite Hrun in Hrun'; [ | discriminate Hrun'].
  injection Hrun' as -> _. exact Hrest.
Qed.


(** A reading that is not left unfinished has sampled its cards. *)
Lemma finished_reading_sampled (fs : Assets) (deck : list Card)
    (author spread : string) (q : option string) (ps : list string) (b : Bot) :
  dict_get SPREADS spread = Some ps ->
  List.length ps <= List.length deck ->
  fst (tarot_reading fs deck author spread q b) <> Unfinished ->
  exists picked g',
    random.sample deck (List.length ps) (rand b) = (Returned picked, g').
Proof.
  intros Hspread Hsize Hfin.
  destruct (sample_cases deck (List.length ps) (rand b) Hsize)
    as [[picked [d [Hrun _]]] | [d [Hrun _]]].
  - now exists picked, (skip d (rand b)).
  - rewrite (tarot_reading_unfinished fs deck author spread q ps b _ Hspread Hrun)
      in Hfin.
    now contradiction Hfin.
Qed.

(* ================================================================== *)
(** ** Letter case of ASCII strings *)
(* ================================================================== *)

Lemma chars_map_chars (f : ascii -> ascii) (s : string) :
  chars (map_chars f s) = map f (chars s).
Proof.
  induction s as [|c s IH]; simpl; [reflexivity | now rewrite IH].
Qed.

Lemma map_chars_length (f : ascii -> ascii) (s : string) :
  String.length (map_chars f s) = String.length s.
Proof.
  induction s as [|c s IH]; simpl; [reflexivity | now rewrite IH].
Qed.

Lemma map_chars_app (f : ascii -> ascii) (s t : string) :
  map_chars f (s ++ t) = map_chars f s ++ map_chars f t.
Proof.
  induction s as [|c s IH]; simpl; [reflexivity | now rewrite IH].
Qed.

(** A string that maps to a concatenation is a concatenation. *)
Lemma map_chars_split (f : ascii -> ascii) (x y s : string) :
  map_chars f s = x ++ y ->
  exists s1 s2, s = s1 ++ s2 /\ map_chars f s1 = x /\ map_chars f s2 = y.
Proof.
  revert s. induction x as [|c x IH]; intros s H.
  - now exists "", s.
  - destruct s as [|d s]; [discriminate H | ].
    cbn [map_chars append] in H. injection H as Hc Hs.
    destruct (IH s Hs) as [s1 [s2 [-> [H1 H2]]]].
    exists (String d s1), s2. cbn [map_chars append]. now rewrite Hc, H1.
Qed.

Lemma nat_of_to_lower (c : ascii) :
  nat_of_ascii (to_lower c)
  = if is_upper c then nat_of_ascii c + 32 else nat_of_ascii c.
Proof.
  destruct c as [[] [] [] [] [] [] [] []]; reflexivity.
Qed.

(** Two characters have the same lower case exactly when they are the same
    character or the two cases of one letter. *)
Lemma to_lower_same_letter (a b : ascii) :
  to_lower a = to_lower b <-> same_letter a b = true.
Proof.
  assert (Hinj : forall c d, nat_of_ascii c = nat_of_ascii d -> c = d).
  { intros c d H. rewrite <- (ascii_nat_embedding c), <- (ascii_nat_embedding d).
    now rewrite H. }
  transitivity (nat_of_ascii (to_lower a) = nat_of_ascii (to_lower b)).
  { split; [now intros -> | apply Hinj]. }
  rewrite !nat_of_to_lower. unfold same_letter, is_upper. cbv zeta.
  generalize (nat_of_ascii a) (nat_of_ascii b). intros x y.
  rewrite !orb_true_iff, !andb_true_iff, !Nat.eqb_eq, !Nat.leb_le.
  destruct (Nat.leb_spec 65 x), (Nat.leb_spec x 90),
           (Nat.leb_spec 65 y), (Nat.leb_spec y 90); cbn [andb]; lia.
Qed.

Lemma same_letters_iff (s t : string) :
  same_letters s t = true <-> ascii_lower s = ascii_lower t.
Proof.
  unfold ascii_lower. revert t.
  induction s as [|a s IH]; intros [|b t]; cbn [same_letters map_chars];
    try (split; [reflexivity | reflexivity]);
    try (split; intros H; discriminate H).
  rewrite andb_true_iff, <- to_lower_same_letter, IH. split.
  - now intros [-> ->].
  - intros H. injection H as Hc Hs. now split.
Qed.

(** Containment of the lower-cased query in the lower-cased name is an
    occurrence of the query in the name, letter case aside. *)
Lemma ascii_lower_contained (query card_name : string) :
  (exists before after,
      ascii_lower card_name = before ++ ascii_lower query ++ after)
  <-> occurs_ignoring_case query card_name.
Proof.
  unfold occurs_ignoring_case. split.
  - intros [before [after H]].
    destruct (map_chars_split to_lower _ _ _ H) as [s1 [s23 [-> [_ H23]]]].
    destruct (map_chars_split to_lower _ _ _ H23) as [s2 [s3 [-> [H2 _]]]].
    exists s1, s2, s3. split; [reflexivity | ].
    apply same_letters_iff. now symmetry.
  - intros [before [middle [after [-> Hsame]]]].
    apply same_letters_iff in Hsame.
    exists (ascii_lower before), (ascii_lower after).
    unfold ascii_lower in *. now rewrite !map_chars_app, Hsame.
Qed.

Lemma name_matches_ascii (query : string) (card : Card) :
  is_ascii query = true ->
  is_ascii (name card) = true ->
  name_matches query card <-> occurs_ignoring_case query (name card).
Proof.
  intros Hq Hn. unfold name_matches.
  rewrite (lower_ascii query Hq), (lower_ascii (name card) Hn).
  apply ascii_lower_contained.
Qed.

(* ================================================================== *)
(** ** The claims *)
(* ================================================================== *)

(** C1.  The text renderer flips a coin per card itself
    ([random.choice([True, False])] inside [generate_reading]), so one and
    the same reading renders to two different texts under two random
    sources: with raw draws 0 the Fool is labelled Reversed, with raw draws
    1 it is labelled Upright.  The orientations [tarot_reading] fixed
    upstream and hands to [create_card_image] never reach the text. *)
Theorem generate_reading_flips_inside :
  fst (generate_reading (TarotReading_init [the_fool] "single" None)
                        (constant_rng 0))
  = Returned (reading_text "single" None [(the_fool, "Present")] [true])
  /\ fst (generate_reading (TarotReading_init [the_fool] "single" None)
                           (constant_rng 1))
     = Returned (reading_text "single" None [(the_fool, "Present")] [false])
  /\ fst (generate_reading (TarotReading_init [the_fool] "single" None)
                           (constant_rng 0))
     <> fst (generate_reading (TarotReading_init [the_fool] "single" None)
                              (constant_rng 1)).
Proof.
  split; [ | split].
  - now rewrite generate_reading_run.
  - now rewrite generate_reading_run.
  - now apply (generate_reading_two_texts _ the_fool "Present" [] []).
Qed.


(** C3, amended.  The image renderer never raises.  When the asset file is
    missing it draws the placeholder (bordered rectangle and card name) and
    then the captions; when the file is there and opening, rotating or
    resizing it raises, the exception is swallowed and only the captions
    are drawn on the background, without a placeholder. *)
Theorem image_fallback (fs : Assets) (card : Card) (position : string)
    (is_reversed : bool) :
  (asset_missing fs card ->
   create_card_image fs card position is_reversed
   = Returned (card_png (placeholder_ops card) position is_reversed))
  /\ (asset_fails fs card ->
      create_card_image fs card position is_reversed
      = Returned (card_png [] position is_reversed)).
Proof.
  rewrite create_card_image_run. unfold asset_missing, asset_fails, rendered_layer.
  split.
  - intros ->. reflexivity.
  - intros [-> [-> | ->]]; [reflexivity | ].
    now rewrite andb_false_r.
Qed.

(** C4, amended.  Loading does not validate the deck: a source that parses
    as a JSON array is returned as the deck as it stands, also when it is
    what the specification calls malformed: empty, with a record missing a
    required field, or with two records of the same name. *)
Theorem malformed_deck_is_accepted (records : list json) :
  records = []
  \/ existsb missing_required_field records = true
  \/ has_duplicate (map record_name records) = true ->
  malformed (JArray records) = true
  /\ load_tarot_cards (Document (JArray records)) = Returned (JArray records).
Proof.
  intros H. split; [ | reflexivity].
  destruct H as [-> | H]; [reflexivity | ].
  destruct records as [|record records]; [reflexivity | ].
  unfold malformed. apply orb_true_iff. exact H.
Qed.

(** C5.  For a spread identifier that is not in the catalogue, [!tarot]
    draws nothing from the random source and reads nothing of the deck (its
    answer is the same for every deck), returns without an error, and sends
    one message: the listing of the catalogue, one field per spread in
    catalogue order. *)
Theorem unknown_spread_lists_catalogue (fs : Assets) (deck : list Card)
    (author spread : string) (q : option string) (b : Bot) :
  dict_mem SPREADS spread = false ->
  tarot_reading fs deck author spread q b
  = (Returned tt,
     {| rand := rand b; sent := (sent b ++ [SendEmbed spreads_listing])%list |})
  /\ (forall deck' : list Card,
         tarot_reading fs deck' author spread q b
         = tarot_reading fs deck author spread q b)
  /\ map field_name (embed_fields spreads_listing)
     = map (fun entry => title (replace "_" " " (fst entry))) SPREADS
  /\ map field_value (embed_fields spreads_listing)
     = map (fun entry =>
              of_nat (List.length (snd entry)) ++ " cards" ++ nl
              ++ "`!tarot " ++ fst entry ++ " [question]`") SPREADS.
Proof.
  intros Hmem. unfold dict_mem in Hmem.
  assert (Hrun : forall d, tarot_reading fs d author spread q b
                           = (Returned tt,
                              {| rand := rand b;
                                 sent := (sent b ++ [SendEmbed spreads_listing])%list |})).
  { intros d. unfold tarot_reading.
    destruct (dict_get SPREADS spread); [discriminate | reflexivity]. }
  repeat split.
  - apply Hrun.
  - intros deck'. now rewrite !Hrun.
Qed.

(** C6.  For a spread of the catalogue with more positions than the deck
    has cards, [!tarot] raises the sampler's error before it draws, renders
    or sends anything: the bot's state is untouched, no reading exists.
    Run by the command framework, the only thing the user sees is the
    error report of [on_command_error]. *)
Theorem spread_larger_than_deck (fs : Assets) (deck : list Card)
    (author spread : string) (q : option string) (ps : list string) (b : Bot) :
  dict_get SPREADS spread = Some ps ->
  List.length deck < List.length ps ->
  tarot_reading fs deck author spread q b
  = (Raised (ValueError "Sample larger than population or is negative"), b)
  /\ invoke (tarot_reading fs deck author spread q) b
     = (Returned tt,
        {| rand := rand b;
           sent := (sent b
                    ++ [SendText "❌ An error occurred: Command raised an exception: ValueError: Sample larger than population or is negative"])%list |}).
Proof.
  intros Hspread Hsize.
  assert (Hrun : tarot_reading fs deck author spread q b
                 = (Raised (ValueError "Sample larger than population or is negative"), b)).
  { unfold tarot_reading. rewrite Hspread. unfold bind at 1, with_random at 1.
    rewrite (sample_too_large deck (List.length ps) (rand b) Hsize).
    now destruct b. }
  split; [exact Hrun | ].
  unfold invoke. rewrite Hrun. reflexivity.
Qed.

(** C7.  For every query string the lookup of [!card] returns the first
    card, in deck order, whose lower-cased name (Python's [str.lower])
    contains the lower-cased query, and nothing when no card does.  Two
    queries with the same lower-casing find the same card.  For a query and
    a name of ASCII characters, the name matches exactly when the query
    occurs in it, letter case aside, and two queries that differ in letter
    case only find the same card.  When nothing matches a non-empty query,
    the command returns normally after sending the no-match report. *)
Theorem card_lookup_first_match (fs : Assets) (deck : list Card)
    (query : string) (b : Bot) :
  (forall card,
      find_card deck query = Some card <->
      exists before after,
        deck = (before ++ card :: after)%list
        /\ name_matches query card
        /\ forall c, In c before -> ~ name_matches query c)
  /\ (find_card deck query = None <->
      forall c, In c deck -> ~ name_matches query c)
  /\ (forall card,
         is_ascii query = true ->
         is_ascii (name card) = true ->
         name_matches query card <-> occurs_ignoring_case query (name card))
  /\ (forall query',
         lower query' = lower query ->
         find_card deck query' = find_card deck query)
  /\ (forall query',
         is_ascii query = true ->
         is_ascii query' = true ->
         same_letters query query' = true ->
         find_card deck query' = find_card deck query)
  /\ (truthy query = true ->
      find_card deck query = None ->
      single_card fs deck (Some query) b
      = (Returned tt,
         {| rand := rand b;
            sent := (sent b ++ [SendText (card_not_found query)])%list |})).
Proof.
  split; [intros card; apply find_card_Some | ].
  split; [apply find_card_None | ].
  split; [intros card; apply name_matches_ascii | ].
  split; [intros query' Hlow; unfold find_card; now rewrite Hlow | ].
  split.
  - intros query' Hq Hq' Hsame. apply same_letters_iff in Hsame.
    unfold find_card. now rewrite (lower_ascii _ Hq), (lower_ascii _ Hq'), Hsame.
  - intros Htruthy Hnone. unfold single_card. cbn [truthy_opt].
    rewrite Htruthy. cbn [negb]. rewrite Hnone. reflexivity.
Qed.

(** C8.  The rendered text of a reading is the header, the question line
    when a question was supplied (and nothing in its place otherwise), and
    then exactly one section per drawn card, the [i]-th section naming the
    [i]-th position and the [i]-th card.  The drawn cards of a
    [TarotReading] are the pairs of [zip(cards, positions)]; for the
    readings [!tarot] builds, where there are as many cards as positions,
    that is one section per sampled card. *)
Theorem one_section_per_drawn_card (self : TarotReading) (g : rng) :
  let drawn := combine (cards self) (positions self) in
  exists orientations : list bool,
    fst (generate_reading self g)
    = Returned (header_text (spread_type self)
                ++ question_line (question self)
                ++ String.concat "" (sections drawn orientations))
    /\ List.length (sections drawn orientations) = List.length drawn
    /\ (forall i card position,
           nth_error drawn i = Some (card, position) ->
           exists r,
             nth_error (sections drawn orientations) i
             = Some (section_text card position r))
    /\ (List.length (cards self) = List.length (positions self) ->
        List.length (sections drawn orientations) = List.length (cards self)
        /\ forall i card,
             nth_error (cards self) i = Some card ->
             exists position r,
               nth_error (positions self) i = Some position
               /\ nth_error (sections drawn orientations) i
                  = Some (section_text card position r))
    /\ (question_line (question self) = "" <-> truthy_opt (question self) = false)
    /\ (forall s,
           question self = Some s -> truthy s = true ->
           question_line (question self) = "**Question:** " ++ s ++ nl ++ nl).
Proof.
  intros drawn. exists (flips g (List.length drawn)).
  assert (Hlen : List.length (flips g (List.length drawn)) = List.length drawn)
    by apply flips_length.
  split; [ | split; [ | split; [ | split; [ | split]]]].
  - pose proof (generate_reading_run self g) as Hrun. cbv zeta in Hrun.
    fold drawn in Hrun. rewrite Hrun. reflexivity.
  - now apply sections_length.
  - intros i card position Hi.
    destruct (sections_nth drawn _ i card position Hlen Hi) as [r [_ Hr]].
    now exists r.
  - intros Hbal. split.
    + rewrite sections_length by exact Hlen. unfold drawn.
      rewrite length_combine. lia.
    + intros i card Hi.
      assert (Hlt : i < List.length (positions self)).
      { rewrite <- Hbal. apply nth_error_Some. congruence. }
      destruct (nth_error_in_range (positions self) i Hlt) as [position Hp].
      pose proof (nth_error_combine _ _ i card position Hi Hp) as Hd.
      destruct (sections_nth drawn _ i card position Hlen Hd) as [r [_ Hr]].
      now exists position, r.
  - apply question_line_empty.
  - intros s Hq Ht. unfold question_line. now rewrite Hq, Ht.
Qed.

(** C9.  Whether or not the card-art file exists, and whether or not it
    loads, [create_card_image] returns (it never raises) the PNG encoding
    of the 400 by 600 canvas, ending with the position and orientation
    captions. *)
Theorem image_always_returned (fs : Assets) (card : Card) (position : string)
    (is_reversed : bool) :
  exists layer,
    create_card_image fs card position is_reversed
    = Returned {| png_width := 400; png_height := 600;
                  png_background := (30, 30, 40);
                  png_content := (layer ++ caption_ops position is_reversed)%list |}.
Proof.
  exists (rendered_layer fs card is_reversed). apply create_card_image_run.
Qed.

(** C10.  The orientations of the card images and the orientations shown in
    the text of one reading come from separate draws of the random source:
    whatever orientations are wanted for the images and, separately, for
    the text, some random source makes [!tarot] send exactly that reading.
    In particular a card can be labelled Upright in the text while its
    image is rendered Reversed, and the other way round. *)
Theorem text_and_image_orientations_independent (fs : Assets)
    (deck : list Card) (author spread : string) (q : option string)
    (ps : list string) (text_flips image_flips : list bool) :
  dict_get SPREADS spread = Some ps ->
  List.length ps <= List.length deck ->
  List.length text_flips = List.length ps ->
  List.length image_flips = List.length ps ->
  exists (g : rng) (picked : list Card),
    List.length picked = List.length ps
    /\ fst (tarot_reading fs deck author spread q (fresh_bot g)) = Returned tt
    /\ sent (snd (tarot_reading fs deck author spread q (fresh_bot g)))
       = SendEmbed (reading_embed author spread q
                      (reading_text spread q (combine picked ps) text_flips))
         :: card_files fs 0 (combine picked ps) image_flips.
Proof.
  intros Hspread Hsize Htext Himage.
  set (n := List.length ps) in *.
  set (g := scripted_rng n image_flips text_flips).
  destruct (sample_counting deck n g Hsize) as [picked [Hsample Hlen]].
  { intros i Hi. unfold g, scripted_rng. cbn [tape cursor Nat.add].
    now destruct (Nat.ltb_spec i n); [ | lia]. }
  pose proof (tarot_reading_run fs deck author spread q ps (fresh_bot g)
                picked (skip n g) Hspread Hsample Hlen) as Hrun.
  cbv zeta in Hrun. fold n in Hrun.
  exists g, picked. split; [exact Hlen | ].
  rewrite Hrun. cbn [fst snd sent rand fresh_bot app]. split; [reflexivity | ].
  rewrite skip_skip. replace (n + n) with (2 * n) by lia. unfold g.
  now rewrite (scripted_image_flips n image_flips text_flips Himage),
              (scripted_text_flips n image_flips text_flips Htext).
Qed.

(* ================================================================== *)
(** ** Further properties: readings *)
(* ================================================================== *)

(** Every spread of the catalogue has between one and ten positions. *)
Lemma spread_sizes (spread : string) (ps : list string) :
  dict_get SPREADS spread = Some ps ->
  1 <= List.length ps <= 10.
Proof.
  unfold SPREADS. cbn [dict_get]. intros H.
  repeat match type of H with
         | (if ?c then _ else _) = _ =>
             destruct c; [injection H as <-; simpl; lia | ]
         end.
  discriminate H.
Qed.

Lemma card_files_length (fs : Assets) (drawn : list (Card * string)) :
  forall (start : nat) (orientations : list bool),
    List.length drawn <= List.length orientations ->
    List.length (card_files fs start drawn orientations) = List.length drawn.
Proof.
  induction drawn as [|[card position] drawn IH]; intros start [|r os] H;
    simpl in *; try lia.
  now rewrite IH by lia.
Qed.

Lemma card_files_nth (fs : Assets) (drawn : list (Card * string)) :
  forall (start i : nat) (orientations : list bool) (card : Card)
         (position : string) (r : bool),
    nth_error drawn i = Some (card, position) ->
    nth_error orientations i = Some r ->
    nth_error (card_files fs start drawn orientations) i
    = Some (SendFile ("card_" ++ of_nat (start + i + 1) ++ ".png")
                     (PngBytes (card_png (rendered_layer fs card r) position r))).
Proof.
  induction drawn as [|[c p] drawn IH];
    intros start [|i] [|r0 os] card position r Hd Ho; try discriminate.
  - simpl in Hd, Ho. injection Hd as -> ->. injection Ho as ->.
    simpl. now rewrite Nat.add_0_r.
  - simpl in Hd, Ho. cbn [card_files nth_error].
    rewrite (IH (S start) i os card position r Hd Ho).
    now replace (S start + i + 1) with (start + S i + 1) by lia.
Qed.

(** X2.  For a spread of the catalogue and a deck that is large enough,
    whenever [!tarot] is through with sampling (on a deck longer than the
    pool threshold of [random.sample] the sampler redraws an index it has
    already selected, for as long as the source repeats itself), it returns
    normally, and the messages it sends after the embed are one attachment
    per position, in position order: the [i]-th (counting from 0) is named
    [card_<i+1>.png] and is a 400 by 600 image with the [i]-th position
    label in its caption. *)
Theorem attachments_follow_positions (fs : Assets) (deck : list Card)
    (author spread : string) (q : option string) (ps : list string) (b : Bot) :
  dict_get SPREADS spread = Some ps ->
  List.length ps <= List.length deck ->
  fst (tarot_reading fs deck author spread q b) <> Unfinished ->
  fst (tarot_reading fs deck author spread q b) = Returned tt
  /\ exists embed files,
    sent (snd (tarot_reading fs deck author spread q b))
    = (sent b ++ SendEmbed embed :: files)%list
    /\ List.length files = List.length ps
    /\ forall i position,
         nth_error ps i = Some position ->
         exists img,
           nth_error files i
           = Some (SendFile ("card_" ++ of_nat (i + 1) ++ ".png") (PngBytes img))
           /\ png_width img = 400 /\ png_height img = 600
           /\ In (Text 200 575 position (255, 255, 200) "mm") (png_content img).
Proof.
  intros Hspread Hsize Hfin.
  destruct (finished_reading_sampled fs deck author spread q ps b
              Hspread Hsize Hfin) as [picked [g1 Hsample]].
  destruct (sample_returned deck _ _ _ picked Hsize Hsample) as [Hlen _].
  pose proof (tarot_reading_run fs deck author spread q ps b picked g1
                Hspread Hsample Hlen) as Hrun.
  cbv zeta in Hrun. rewrite Hrun. cbn [fst snd sent].
  split; [reflexivity | ].
  eexists; eexists. split; [reflexivity | ]. split.
  - rewrite card_files_length.
    + rewrite length_combine. lia.
    + rewrite flips_length, length_combine. lia.
  - intros i position Hi.
    assert (Hlt : i < List.length ps) by (apply nth_error_Some; congruence).
    destruct (nth_error_in_range picked i ltac:(lia)) as [card Hc].
    destruct (nth_error_in_range (flips g1 (List.length ps)) i
                ltac:(rewrite flips_length; lia)) as [r Hr].
    pose proof (nth_error_combine picked ps i card position Hc Hi) as Hd.
    rewrite (card_files_nth fs _ 0 i _ card position r Hd Hr).
    eexists. split; [reflexivity | ]. cbn [card_png png_width png_height png_content].
    repeat split. apply in_or_app. right. simpl. auto.
Qed.

Lemma combine_shorter {A B} (l : list A) (l' : list B) :
  let m := Nat.min (List.length l) (List.length l') in
  combine l l' = combine (firstn m l) (firstn m l').
Proof.
  intros m. rewrite <- combine_firstn. symmetry. apply firstn_all2.
  rewrite length_combine. apply le_n.
Qed.

(** X3.  The text renderer stops at the shorter of the cards and the
    positions of the spread: the text has exactly [m] sections, built from
    the first [m] cards and the first [m] positions, where [m] is the
    smaller of the two counts; nothing of a further card or position is
    shown, and the renderer reads exactly [m] raw draws. *)
Theorem reading_stops_at_the_shorter (cs : list Card) (spread : string)
    (q : option string) (ps : list string) (g : rng) :
  dict_get SPREADS spread = Some ps ->
  let m := Nat.min (List.length cs) (List.length ps) in
  generate_reading (TarotReading_init cs spread q) g
  = (Returned (reading_text spread q
                 (combine (firstn m cs) (firstn m ps)) (flips g m)),
     skip m g)
  /\ List.length (sections (combine (firstn m cs) (firstn m ps)) (flips g m))
     = m.
Proof.
  intros Hspread m.
  pose proof (generate_reading_run (TarotReading_init cs spread q) g) as Hrun.
  unfold TarotReading_init in *.
  cbn [cards positions spread_type question] in Hrun.
  cbv zeta in Hrun. rewrite Hspread in Hrun.
  assert (Hm : List.length (combine cs ps) = m)
    by (rewrite length_combine; reflexivity).
  rewrite Hm in Hrun. rewrite (combine_shorter cs ps) in Hrun. fold m in Hrun.
  rewrite Hspread. split; [exact Hrun | ].
  assert (Hm' : List.length (combine (firstn m cs) (firstn m ps)) = m)
    by (unfold m; rewrite <- (combine_shorter cs ps); exact Hm).
  rewrite sections_length; [exact Hm' | ].
  now rewrite flips_length, Hm'.
Qed.

(** X4.  A [TarotReading] made for a spread identifier that is not in the
    catalogue has no positions: whatever cards it holds, its text is the
    header and the question line only, and rendering it reads nothing from
    the random source. *)
Theorem reading_of_unknown_spread (cs : list Card) (spread : string)
    (q : option string) (g : rng) :
  dict_mem SPREADS spread = false ->
  positions (TarotReading_init cs spread q) = []
  /\ generate_reading (TarotReading_init cs spread q) g
     = (Returned (header_text spread ++ question_line q), g).
Proof.
  unfold dict_mem. intros Hmem.
  assert (Hpos : positions (TarotReading_init cs spread q) = []).
  { unfold TarotReading_init. cbn [positions].
    destruct (dict_get SPREADS spread); [discriminate | reflexivity]. }
  split; [exact Hpos | ].
  pose proof (generate_reading_run (TarotReading_init cs spread q) g) as Hrun.
  cbv zeta in Hrun. rewrite Hpos in Hrun. rewrite combine_nil in Hrun.
  cbn [List.length] in Hrun. rewrite skip_0 in Hrun. rewrite Hrun.
  unfold reading_text, sections, flips. cbn [seq map combine String.concat].
  unfold TarotReading_init. cbn [spread_type question].
  now rewrite append_empty_r.
Qed.

(* ================================================================== *)
(** ** Further properties: card art *)
(* ================================================================== *)

(** X5.  When the card-art file exists, opens and decodes, the image is the
    art resized to 380 by 580 and pasted at (10, 10), turned by 180 degrees
    exactly when the card is reversed, under the captions; no placeholder is
    drawn. *)
Theorem image_shows_the_art (fs : Assets) (card : Card) (position : string)
    (is_reversed : bool) :
  let p := path_join "card_images" (card_filename card) in
  path_exists fs p = true ->
  image_open_ok fs p = true ->
  image_load_ok fs p = true ->
  create_card_image fs card position is_reversed
  = Returned
      (card_png
         [Paste (Resized 380 580
                   (if is_reversed then Rotated 180 (FileImage p)
                    else FileImage p)) 10 10]
         position is_reversed).
Proof.
  intros p Hexists Hopen Hload. rewrite create_card_image_run.
  unfold rendered_layer. fold p. now rewrite Hexists, Hopen, Hload.
Qed.

(** A character of the stem of an ASCII name is neither a space nor a
    capital. *)
Lemma stem_char (c : ascii) :
  let c' := if Ascii.eqb (to_lower c) " " then "_"%char else to_lower c in
  c' <> " "%char /\ is_upper c' = false.
Proof.
  destruct c as [[] [] [] [] [] [] [] []]; vm_compute;
    (split; [discriminate | reflexivity]).
Qed.

(** X6.  The card art is looked up under [<number>_<stem>.jpg], where the
    stem is the lower-casing of the card's name (Python's [str.lower])
    with every space replaced by an underscore: the stem never holds a
    space.  For a name of ASCII characters the stem is the name with every
    capital lower-cased and every space replaced: it is as long as the
    name and holds no ASCII capital. *)
Theorem asset_file_name (card : Card) :
  card_filename card
  = format_number (number card) ++ "_" ++ asset_stem card ++ ".jpg"
  /\ asset_stem card = replace " " "_" (lower (name card))
  /\ (forall c, In c (chars (asset_stem card)) -> c <> " "%char)
  /\ (is_ascii (name card) = true ->
      asset_stem card = replace " " "_" (ascii_lower (name card))
      /\ String.length (asset_stem card) = String.length (name card)
      /\ forall c, In c (chars (asset_stem card)) -> is_upper c = false).
Proof.
  split; [reflexivity | ]. split; [reflexivity | ]. split.
  - unfold asset_stem, replace. rewrite chars_map_chars.
    intros c Hc. apply in_map_iff in Hc. destruct Hc as [c0 [<- _]].
    destruct (Ascii.eqb_spec c0 " "); [discriminate | assumption].
  - intros Hascii. unfold asset_stem. rewrite (lower_ascii _ Hascii).
    split; [reflexivity | ]. unfold replace, ascii_lower. split.
    + now rewrite !map_chars_length.
    + rewrite !chars_map_chars, map_map.
      intros c Hc. apply in_map_iff in Hc. destruct Hc as [c0 [<- _]].
      apply stem_char.
Qed.

(* ================================================================== *)
(** ** Further properties: the [!card] command *)
(* ================================================================== *)

Lemma name_matches_itself (card : Card) : name_matches (name card) card.
Proof.
  exists "", "". simpl. now rewrite append_empty_r.
Qed.

(** X7.  Looking a card of the deck up by its full name never fails: the
    lookup returns a card of the deck whose name contains that name, letter
    case aside, namely the first such card, which need not be the card
    itself. *)
Theorem lookup_by_full_name (deck : list Card) (card : Card) :
  In card deck ->
  exists found,
    find_card deck (name card) = Some found
    /\ In found deck
    /\ name_matches (name card) found.
Proof.
  intros Hin. destruct (find_card deck (name card)) as [found|] eqn:Hfind.
  - exists found. split; [reflexivity | ].
    apply find_card_Some in Hfind.
    destruct Hfind as [before [after [-> [Hm _]]]].
    split; [ | exact Hm]. apply in_or_app. right. now left.
  - exfalso. rewrite find_card_None in Hfind.
    exact (Hfind card Hin (name_matches_itself card)).
Qed.

(** The statements of [!card] after the card is chosen: the embed, then the
    art when its file exists and opens; a file that does not open is
    passed over. *)
Lemma show_card_run (fs : Assets) (card : Card) (b : Bot) :
  exists embed,
    show_card fs card b
    = (Returned tt,
       {| rand := rand b;
          sent := (sent b ++ SendEmbed embed :: art_messages fs card)%list |})
    /\ embed_title embed = "🃏 " ++ name card
    /\ embed_color embed = (if String.eqb (arcana card) "major" then gold else blue)
    /\ map field_name (embed_fields embed) = card_field_names card
    /\ map field_value (embed_fields embed) = card_field_values card.
Proof.
  unfold show_card, art_messages, card_field_names, card_field_values.
  remember (path_join "card_images" (card_filename card)) as p eqn:Hp.
  destruct (suit card) as [s|]; [destruct (truthy s) | ];
    (eexists; split;
     [ unfold bind at 1; unfold send at 1; cbn [rand sent];
       unfold try_except_pass, discord_File, bind, send, ret, raise;
       destruct (path_exists fs p); [destruct (file_readable fs p) | ];
       cbn [rand sent andb]; rewrite <- ?app_assoc; reflexivity
     | repeat split ]).
Qed.

(** X8.  When a non-empty query matches, [!card] never raises and reads
    nothing from the random source: it sends the embed of the first
    matching card (its fields are Number, Arcana, Suit when the card has
    one, Keywords and the two meanings), followed by the card art exactly
    when the file exists and opens. *)
Theorem lookup_shows_the_card (fs : Assets) (deck : list Card)
    (query : string) (card : Card) (b : Bot) :
  truthy query = true ->
  find_card deck query = Some card ->
  exists embed,
    single_card fs deck (Some query) b
    = (Returned tt,
       {| rand := rand b;
          sent := (sent b ++ SendEmbed embed :: art_messages fs card)%list |})
    /\ embed_title embed = "🃏 " ++ name card
    /\ map field_name (embed_fields embed) = card_field_names card
    /\ map field_value (embed_fields embed) = card_field_values card.
Proof.
  intros Htruthy Hfind.
  destruct (show_card_run fs card b) as [embed [Hrun [Htitle [_ [Hn Hv]]]]].
  exists embed. repeat split; auto.
  unfold single_card. cbn [truthy_opt]. rewrite Htruthy. cbn [negb].
  now rewrite Hfind.
Qed.

(** [random.choice] on a sequence that is not empty. *)
Lemma choice_run {A} (seq : list A) (g : rng) :
  seq <> [] ->
  exists x,
    nth_error seq (tape g (cursor g) mod List.length seq) = Some x
    /\ random.choice seq g = (Returned x, skip 1 g).
Proof.
  intros Hne. destruct seq as [|y seq]; [congruence | ].
  unfold random.choice, bind. rewrite randbelow_run.
  set (i := tape g (cursor g) mod List.length (y :: seq)).
  assert (Hi : i < List.length (y :: seq))
    by (apply Nat.mod_upper_bound; discriminate).
  destruct (nth_error_in_range (y :: seq) i Hi) as [x Hx].
  exists x. split; [exact Hx | ]. now rewrite Hx.
Qed.

(** X9.  Without a card name, [!card] on an empty deck raises before it
    sends anything; run by the command framework, the user gets the one
    error report of [on_command_error]. *)
Theorem random_card_of_empty_deck (fs : Assets) (card_name : option string)
    (b : Bot) :
  truthy_opt card_name = false ->
  single_card fs [] card_name b
  = (Raised (IndexError "Cannot choose from an empty sequence"), b)
  /\ invoke (single_card fs [] card_name) b
     = (Returned tt,
        {| rand := rand b;
           sent := (sent b
                    ++ [SendText "❌ An error occurred: Command raised an exception: IndexError: Cannot choose from an empty sequence"])%list |}).
Proof.
  intros Hname.
  assert (Hrun : single_card fs [] card_name b
                 = (Raised (IndexError "Cannot choose from an empty sequence"), b)).
  { unfold single_card. rewrite Hname. cbn [negb].
    unfold bind, with_random, random.choice, raise. now destruct b. }
  split; [exact Hrun | ]. unfold invoke. now rewrite Hrun.
Qed.

(** X10.  Without a card name, [!card] on a deck that is not empty never
    raises: it reads one raw draw [v], takes the card at index [v mod
    len(deck)], and sends that card's embed, followed by the art when the
    file exists and opens. *)
Theorem random_card_of_deck (fs : Assets) (deck : list Card)
    (card_name : option string) (b : Bot) :
  truthy_opt card_name = false ->
  deck <> [] ->
  exists card embed,
    nth_error deck (tape (rand b) (cursor (rand b)) mod List.length deck)
    = Some card
    /\ single_card fs deck card_name b
       = (Returned tt,
          {| rand := skip 1 (rand b);
             sent := (sent b ++ SendEmbed embed :: art_messages fs card)%list |})
    /\ embed_title embed = "🃏 " ++ name card.
Proof.
  intros Hname Hne.
  destruct (choice_run deck (rand b) Hne) as [card [Hnth Hchoice]].
  destruct (show_card_run fs card {| rand := skip 1 (rand b); sent := sent b |})
    as [embed [Hrun [Htitle _]]].
  exists card, embed. split; [exact Hnth | split; [ | exact Htitle]].
  unfold single_card. rewrite Hname. cbn [negb].
  unfold bind, with_random. rewrite Hchoice. exact Hrun.
Qed.

(* ================================================================== *)
(** ** Further properties: the [!daily] command *)
(* ================================================================== *)

(** X12.  On a deck that is not empty [!daily] never raises.  It reads two
    raw draws: the first, [v], picks the card at index [v mod len(deck)],
    the second decides the orientation; the orientation label in the
    description, the message for today and the advice all follow that one
    orientation.  Exactly one embed is sent. *)
Theorem daily_card_is_consistent (deck : list Card) (author : string)
    (ch : Channel) :
  deck <> [] ->
  exists card embed,
    let r := coin_at (chan_rand ch) 1 in
    nth_error deck
      (tape (chan_rand ch) (cursor (chan_rand ch)) mod List.length deck)
    = Some card
    /\ daily_draw deck author ch
       = (Returned tt,
          {| chan_rand := skip 2 (chan_rand ch);
             chan_sent := (chan_sent ch ++ [embed])%list |})
    /\ deck_description embed
       = Some ("**" ++ name card ++ "** (" ++ orientation_label r ++ ")")
    /\ map field_name (deck_fields embed)
       = ["Message for Today"; "Keywords"; "Advice"]
    /\ map field_value (deck_fields embed)
       = [ if r then meaning_rev card else meaning_up card;
           join ", " (keywords card);
           if r
           then "This card reversed suggests you may need to reconsider this area of your life."
           else "This card upright is a positive sign. Embrace its energy today." ]
    /\ deck_footer embed = Some ("For " ++ author).
Proof.
  intros Hne.
  destruct (choice_run deck (chan_rand ch) Hne) as [card [Hnth Hchoice]].
  pose (embed_of := fun is_reversed : bool =>
    deck_set_footer
      (deck_add_field
         (deck_add_field
            (deck_add_field
               {| deck_title := "📅 Your Daily Tarot Card";
                  deck_description :=
                    Some ("**" ++ name card ++ "** ("
                          ++ orientation_label is_reversed ++ ")");
                  deck_color := dark_blue;
                  deck_fields := [];
                  deck_footer := None |}
               "Message for Today"
               (if is_reversed then meaning_rev card else meaning_up card)
               false)
            "Keywords" (join ", " (keywords card)) false)
         "Advice"
         (if is_reversed
          then "This card reversed suggests you may need to reconsider this area of your life."
          else "This card upright is a positive sign. Embrace its energy today.")
         false)
      ("For " ++ author)).
  exists card, (embed_of (coin_at (chan_rand ch) 1)). cbv zeta.
  split; [exact Hnth | ]. split; [ | repeat split].
  unfold daily_draw. unfold bind at 1. unfold chan_random at 1.
  rewrite Hchoice. cbn [chan_rand chan_sent].
  unfold bind at 1. unfold chan_random at 1. cbn [chan_rand chan_sent].
  rewrite coin_run, coin_at_skip, skip_skip. cbn [Nat.add].
  reflexivity.
Qed.

(** X13.  On an empty deck [!daily] raises [IndexError] before it reads the
    random source or sends anything. *)
Theorem daily_card_of_empty_deck (author : string) (ch : Channel) :
  daily_draw [] author ch
  = (Raised (IndexError "Cannot choose from an empty sequence"), ch).
Proof.
  unfold daily_draw, bind, chan_random, random.choice, raise. now destruct ch.
Qed.

(* ================================================================== *)
(** ** Further properties: the [!cards] command *)
(* ================================================================== *)

Lemma fold_deck_add_field (field_of : string -> EmbedField) (l : list string) :
  forall e : DeckEmbed,
    fold_left
      (fun embed suit =>
         deck_add_field embed (field_name (field_of suit))
                        (field_value (field_of suit)) true)
      l e
    = {| deck_title := deck_title e;
         deck_description := deck_description e;
         deck_color := deck_color e;
         deck_fields :=
           (deck_fields e
            ++ map (fun suit => {| field_name := field_name (field_of suit);
                                   field_value := field_value (field_of suit);
                                   field_inline := true |}) l)%list;
         deck_footer := deck_footer e |}.
Proof.
  induction l as [|s l IH]; intros e.
  - simpl. rewrite app_nil_r. now destruct e.
  - cbn [fold_left]. rewrite IH. unfold deck_add_field at 1 2 3 4 5.
    cbn [deck_title deck_description deck_color deck_fields deck_footer map].
    now rewrite <- app_assoc.
Qed.

(** [!cards] never raises and reads nothing from the random source; it
    sends one embed: the field of the major cards, one field per suit the
    set iteration yields, and the footer. *)
Lemma list_cards_run (set_iter : list string -> list string)
    (deck : list Card) (ch : Channel) :
  let minors := filter (arcana_is "minor") deck in
  list_cards set_iter deck ch
  = (Returned tt,
     {| chan_rand := chan_rand ch;
        chan_sent :=
          app (chan_sent ch)
              [ {| deck_title := "🃏 Tarot Deck Contents";
                   deck_description := None;
                   deck_color := dark_green;
                   deck_fields :=
                     {| field_name := "Major Arcana (22 cards)";
                        field_value :=
                          join nl (map (fun c => format_number (number c)
                                                 ++ ". " ++ name c)
                                       (filter (arcana_is "major") deck));
                        field_inline := true |}
                     :: map (fun suit =>
                               {| field_name := title suit ++ " (14 cards)";
                                  field_value :=
                                    join nl (map name
                                               (firstn 10 (filter (suit_is suit)
                                                                  minors)));
                                  field_inline := true |})
                            (set_iter (truthy_suits minors));
                   deck_footer :=
                     Some ("Total: " ++ of_nat (List.length deck) ++ " cards") |} ] |}).
Proof.
  intros minors. unfold list_cards. fold minors.
  pose proof (fold_deck_add_field
                (fun suit =>
                   {| field_name := title suit ++ " (14 cards)";
                      field_value :=
                        join nl (map name (firstn 10 (filter (suit_is suit) minors)));
                      field_inline := true |})) as Hfold.
  cbn [field_name field_value] in Hfold. cbv zeta. rewrite Hfold.
  reflexivity.
Qed.

Lemma truthy_suits_In (cs : list Card) (s : string) :
  In s (truthy_suits cs) <->
  exists c, In c cs /\ suit c = Some s /\ truthy s = true.
Proof.
  unfold truthy_suits. rewrite in_flat_map. split.
  - intros [c [Hc Hs]]. exists c. split; [exact Hc | ].
    destruct (suit c) as [t|]; [ | contradiction].
    destruct (truthy t) eqn:Ht; [ | contradiction].
    destruct Hs as [<- | []]. now split.
  - intros [c [Hc [Hs Ht]]]. exists c. split; [exact Hc | ].
    rewrite Hs, Ht. now left.
Qed.

Lemma suit_is_true (s : string) (c : Card) :
  suit_is s c = true <-> suit c = Some s.
Proof.
  unfold suit_is. destruct (suit c) as [t|].
  - rewrite String.eqb_eq. split; congruence.
  - split; discriminate.
Qed.

Lemma first_occurrence_iterates : iterates_a_set first_occurrence_order.
Proof.
  intros l. unfold first_occurrence_order. split.
  - apply NoDup_rev, NoDup_nodup.
  - intros x. now rewrite <- in_rev, nodup_In, <- in_rev.
Qed.

(** X14.  [!cards] never raises, reads nothing from the random source and
    sends exactly one embed, for every deck, the empty one included.  Its
    first field lists the cards whose arcana is exactly ['major'], in deck
    order, one [number. name] line each, under a heading that says 22 cards
    however many there are; the footer gives the number of records of the
    deck, listed or not. *)
Theorem cards_listing_major_and_total (set_iter : list string -> list string)
    (deck : list Card) (ch : Channel) :
  exists embed major others listed,
    list_cards set_iter deck ch
    = (Returned tt,
       {| chan_rand := chan_rand ch;
          chan_sent := (chan_sent ch ++ [embed])%list |})
    /\ deck_fields embed = major :: others
    /\ field_name major = "Major Arcana (22 cards)"
    /\ field_value major
       = join nl (map (fun c => format_number (number c) ++ ". " ++ name c)
                      listed)
    /\ listed = filter (arcana_is "major") deck
    /\ (forall c, In c listed <-> In c deck /\ arcana c = "major")
    /\ deck_footer embed
       = Some ("Total: " ++ of_nat (List.length deck) ++ " cards").
Proof.
  pose proof (list_cards_run set_iter deck ch) as Hrun. cbv zeta in Hrun.
  eexists; eexists; eexists; exists (filter (arcana_is "major") deck).
  split; [exact Hrun | ].
  do 4 (split; [reflexivity | ]). split; [ | reflexivity].
  intros c. rewrite filter_In. unfold arcana_is. now rewrite String.eqb_eq.
Qed.

(** X15.  After the first field [!cards] shows one field per distinct
    non-empty suit among the cards whose arcana is ['minor'], in the order
    the set of suits is iterated.  Each such field shows between one and
    ten names: the first ten cards of the suit in deck order, so an
    eleventh card of a suit is not shown, under a heading that says 14
    cards. *)
Theorem cards_listing_suits (set_iter : list string -> list string)
    (deck : list Card) (ch : Channel) :
  iterates_a_set set_iter ->
  let minors := filter (arcana_is "minor") deck in
  exists embed major suits,
    list_cards set_iter deck ch
    = (Returned tt,
       {| chan_rand := chan_rand ch;
          chan_sent := (chan_sent ch ++ [embed])%list |})
    /\ Permutation suits (nodup string_dec (truthy_suits minors))
    /\ deck_fields embed
       = major
         :: map (fun suit =>
                   {| field_name := title suit ++ " (14 cards)";
                      field_value :=
                        join nl (map name
                                   (firstn 10 (filter (suit_is suit) minors)));
                      field_inline := true |})
                suits
    /\ forall suit,
         In suit suits ->
         List.length (firstn 10 (filter (suit_is suit) minors))
         = Nat.min 10 (List.length (filter (suit_is suit) minors))
         /\ 1 <= List.length (firstn 10 (filter (suit_is suit) minors)) <= 10.
Proof.
  intros Hset minors.
  pose proof (list_cards_run set_iter deck ch) as Hrun. cbv zeta in Hrun.
  fold minors in Hrun.
  destruct (Hset (truthy_suits minors)) as [Hnd Hin].
  eexists; eexists; exists (set_iter (truthy_suits minors)).
  split; [exact Hrun | ]. split; [ | split; [reflexivity | ]].
  - apply NoDup_Permutation; [exact Hnd | apply NoDup_nodup | ].
    intros x. now rewrite Hin, nodup_In.
  - intros suit Hsuit. rewrite length_firstn. split; [reflexivity | ].
    apply Hin, truthy_suits_In in Hsuit. destruct Hsuit as [c [Hc [Hs _]]].
    assert (Hf : In c (filter (suit_is suit) minors)).
    { apply filter_In. split; [exact Hc | now apply suit_is_true]. }
    destruct (filter (suit_is suit) minors) as [|x l]; [contradiction | ].
    cbn [List.length]. lia.
Qed.

(* ================================================================== *)
(** ** Further properties: the [!help] command *)
(* ================================================================== *)

(** A key is in a dictionary exactly when it is among its keys. *)
Lemma dict_mem_keys {V} (d : list (string * V)) (key : string) :
  dict_mem d key = true <-> In key (map fst d).
Proof.
  unfold dict_mem. induction d as [|[k v] d IH]; cbn [dict_get map fst In].
  - split; [discriminate | contradiction].
  - destruct (String.eqb_spec key k) as [->|Hne].
    + split; [now left | reflexivity].
    + rewrite IH. split; [now right | ]. intros [Hk | Hin]; [congruence | exact Hin].
Qed.

(** X16.  The help menu and the catalogue agree: the spreads the first
    help entry names are the keys of [SPREADS], in catalogue order, and
    these are exactly the identifiers [!tarot] accepts; [!tarot help],
    which the second entry advertises as showing the available spreads,
    does send the listing, because [help] is not a spread. *)
Theorem help_names_the_catalogue (fs : Assets) (deck : list Card)
    (author : string) (q : option string) (b : Bot) :
  (exists embed,
      bot_help b
      = (Returned tt,
         {| rand := rand b; sent := (sent b ++ [SendEmbed embed])%list |})
      /\ map field_name (firstn 2 (embed_fields embed))
         = ["!tarot [spread] [question]"; "!tarot help"]
      /\ map field_value (firstn 2 (embed_fields embed))
         = [ "Get a tarot reading" ++ nl
             ++ "Spreads: " ++ join ", " (map fst SPREADS);
             "Show available spreads" ])
  /\ (forall spread, In spread (map fst SPREADS) <-> dict_mem SPREADS spread = true)
  /\ tarot_reading fs deck author "help" q b
     = (Returned tt,
        {| rand := rand b;
           sent := (sent b ++ [SendEmbed spreads_listing])%list |}).
Proof.
  split; [ | split].
  - eexists. split; [reflexivity | split; reflexivity].
  - intros spread. symmetry. apply dict_mem_keys.
  - reflexivity.
Qed.
End Properties.

(* ================================================================== *)
(** ** The theorems at work *)
(* ================================================================== *)

(** The theorems above hold for every lower-casing and title-casing that
    agrees with Python's on strings of ASCII characters.  Below they are
    applied to decks, spreads and queries of ASCII characters, with the
    ASCII functions themselves. *)
#[local] Existing Instance ascii_text.

(** *** The claims *)


(** C3, as stated, fails: when the asset file is there but [Image.open]
    raises, the image is returned without the placeholder. *)
Lemma no_placeholder_after_failed_load :
  ~ (forall (fs : Assets) (card : Card) (position : string) (is_reversed : bool),
        asset_missing fs card \/ asset_fails fs card ->
        exists png,
          create_card_image fs card position is_reversed = Returned png
          /\ incl (placeholder_ops card) (png_content png)).
Proof.
  intros H.
  destruct (H unreadable_assets the_fool "Present" false) as [png [Hrun Hincl]].
  - right. split; [reflexivity | left; reflexivity].
  - vm_compute in Hrun. injection Hrun as <-.
    specialize (Hincl _ (or_introl eq_refl)). simpl in Hincl.
    repeat (destruct Hincl as [Hincl | Hincl]; [discriminate Hincl | ]).
    exact Hincl.
Qed.

Lemma image_fallback_witness :
  create_card_image no_assets the_fool "Present" true
  = Returned (card_png (placeholder_ops the_fool) "Present" true)
  /\ create_card_image unreadable_assets the_fool "Present" true
     = Returned (card_png [] "Present" true).
Proof.
  split.
  - apply (proj1 (image_fallback no_assets the_fool "Present" true)).
    reflexivity.
  - apply (proj2 (image_fallback unreadable_assets the_fool "Present" true)).
    split; [reflexivity | left; reflexivity].
Defined.

(** C4, as stated, fails: an empty deck, which the specification calls
    malformed, is loaded without an error. *)
Lemma malformed_deck_is_loaded :
  ~ (forall doc : json,
        malformed doc = true ->
        exists e, load_tarot_cards (Document doc) = Raised e).
Proof.
  intros H. destruct (H (JArray []) eq_refl) as [e He]. discriminate He.
Qed.

Lemma malformed_deck_is_accepted_witness :
  malformed (JArray [JObject [("name", JString "The Fool")];
                     JObject [("name", JString "The Fool")]]) = true
  /\ load_tarot_cards
       (Document (JArray [JObject [("name", JString "The Fool")];
                          JObject [("name", JString "The Fool")]]))
     = Returned (JArray [JObject [("name", JString "The Fool")];
                         JObject [("name", JString "The Fool")]]).
Proof.
  apply (malformed_deck_is_accepted
           [JObject [("name", JString "The Fool")];
            JObject [("name", JString "The Fool")]]).
  right. right. reflexivity.
Defined.

Lemma unknown_spread_lists_catalogue_witness :
  tarot_reading no_assets [the_fool] "ann" "help" None (fresh_bot (constant_rng 0))
  = (Returned tt,
     {| rand := constant_rng 0; sent := [SendEmbed spreads_listing] |}).
Proof.
  apply (proj1 (unknown_spread_lists_catalogue no_assets [the_fool] "ann" "help"
                  None (fresh_bot (constant_rng 0)) eq_refl)).
Defined.

Lemma spread_larger_than_deck_witness :
  tarot_reading no_assets [the_fool; ace_of_cups] "ann" "three_card" None
    (fresh_bot (constant_rng 0))
  = (Raised (ValueError "Sample larger than population or is negative"),
     fresh_bot (constant_rng 0))
  /\ invoke (tarot_reading no_assets [the_fool; ace_of_cups] "ann" "three_card"
               None) (fresh_bot (constant_rng 0))
     = (Returned tt,
        {| rand := constant_rng 0;
           sent := [SendText "❌ An error occurred: Command raised an exception: ValueError: Sample larger than population or is negative"] |}).
Proof.
  apply (spread_larger_than_deck no_assets [the_fool; ace_of_cups] "ann"
           "three_card" None ["Past"; "Present"; "Future"]
           (fresh_bot (constant_rng 0))).
  - reflexivity.
  - simpl. lia.
Defined.

Lemma card_lookup_first_match_witness :
  single_card no_assets [the_fool; ace_of_cups] (Some "zzzznotacard")
    (fresh_bot (constant_rng 0))
  = (Returned tt,
     {| rand := constant_rng 0;
        sent := [SendText (card_not_found "zzzznotacard")] |}).
Proof.
  apply (proj2 (proj2 (proj2 (proj2 (proj2
           (card_lookup_first_match no_assets [the_fool; ace_of_cups]
              "zzzznotacard" (fresh_bot (constant_rng 0)))))))).
  - reflexivity.
  - reflexivity.
Defined.

Lemma one_section_per_drawn_card_witness :
  exists orientations : list bool,
    fst (generate_reading
           (TarotReading_init [the_fool; ace_of_cups; the_fool] "three_card"
                              (Some "Will I get the job?"))
           (constant_rng 1))
    = Returned (header_text "three_card"
                ++ question_line (Some "Will I get the job?")
                ++ String.concat ""
                     (sections [(the_fool, "Past"); (ace_of_cups, "Present");
                                (the_fool, "Future")] orientations))
    /\ List.length (sections [(the_fool, "Past"); (ace_of_cups, "Present");
                              (the_fool, "Future")] orientations) = 3
    /\ question_line (Some "Will I get the job?")
       = "**Question:** " ++ "Will I get the job?" ++ nl ++ nl.
Proof.
  destruct (one_section_per_drawn_card
              (TarotReading_init [the_fool; ace_of_cups; the_fool] "three_card"
                                 (Some "Will I get the job?"))
              (constant_rng 1))
    as [orientations [Htext [_ [_ [Hbal [_ Hq]]]]]].
  exists orientations. split; [exact Htext | split].
  - apply Hbal. reflexivity.
  - apply (Hq "Will I get the job?"); reflexivity.
Defined.

Lemma text_and_image_orientations_independent_witness :
  exists (g : rng) (picked : list Card),
    List.length picked = 1
    /\ fst (tarot_reading no_assets [the_fool; ace_of_cups] "ann" "single" None
              (fresh_bot g)) = Returned tt
    /\ sent (snd (tarot_reading no_assets [the_fool; ace_of_cups] "ann" "single"
                    None (fresh_bot g)))
       = SendEmbed (reading_embed "ann" "single" None
                      (reading_text "single" None (combine picked ["Present"])
                                    [false]))
         :: card_files no_assets 0 (combine picked ["Present"]) [true].
Proof.
  apply (text_and_image_orientations_independent no_assets
           [the_fool; ace_of_cups] "ann" "single" None ["Present"]
           [false] [true]).
  - reflexivity.
  - simpl. lia.
  - reflexivity.
  - reflexivity.
Defined.

(** *** Further properties *)

Lemma attachments_follow_positions_witness :
  exists embed files,
    sent (snd (tarot_reading no_assets [the_fool; ace_of_cups] "ann" "single"
                 None (fresh_bot (constant_rng 0))))
    = ([] ++ SendEmbed embed :: files)%list
    /\ List.length files = 1
    /\ forall i position,
         nth_error ["Present"] i = Some position ->
         exists img,
           nth_error files i
           = Some (SendFile ("card_" ++ of_nat (i + 1) ++ ".png") (PngBytes img))
           /\ png_width img = 400 /\ png_height img = 600
           /\ In (Text 200 575 position (255, 255, 200) "mm") (png_content img).
Proof.
  apply (attachments_follow_positions no_assets [the_fool; ace_of_cups] "ann"
           "single" None ["Present"] (fresh_bot (constant_rng 0))).
  - reflexivity.
  - simpl. lia.
  - vm_compute. discriminate.
Defined.

Lemma reading_stops_at_the_shorter_witness :
  generate_reading (TarotReading_init [the_fool; ace_of_cups] "single" None)
                   (constant_rng 0)
  = (Returned (reading_text "single" None
                 (combine (firstn 1 [the_fool; ace_of_cups]) (firstn 1 ["Present"]))
                 (flips (constant_rng 0) 1)),
     skip 1 (constant_rng 0))
  /\ List.length
       (sections (combine (firstn 1 [the_fool; ace_of_cups]) (firstn 1 ["Present"]))
                 (flips (constant_rng 0) 1))
     = 1.
Proof.
  apply (reading_stops_at_the_shorter [the_fool; ace_of_cups] "single" None
           ["Present"] (constant_rng 0)).
  reflexivity.
Defined.

Lemma reading_of_unknown_spread_witness :
  positions (TarotReading_init [the_fool; ace_of_cups] "horseshoe" (Some "Why?"))
  = []
  /\ generate_reading
       (TarotReading_init [the_fool; ace_of_cups] "horseshoe" (Some "Why?"))
       (constant_rng 0)
     = (Returned (header_text "horseshoe" ++ question_line (Some "Why?")),
        constant_rng 0).
Proof.
  apply (reading_of_unknown_spread [the_fool; ace_of_cups] "horseshoe"
           (Some "Why?") (constant_rng 0)).
  reflexivity.
Defined.

Lemma image_shows_the_art_witness :
  create_card_image
    {| path_exists := fun _ => true; file_readable := fun _ => true;
       image_open_ok := fun _ => true; image_load_ok := fun _ => true |}
    the_fool "Present" true
  = Returned
      (card_png
         [Paste (Resized 380 580
                   (Rotated 180 (FileImage "card_images/0_the_fool.jpg")))
                10 10]
         "Present" true).
Proof.
  exact (image_shows_the_art
           {| path_exists := fun _ => true; file_readable := fun _ => true;
              image_open_ok := fun _ => true; image_load_ok := fun _ => true |}
           the_fool "Present" true eq_refl eq_refl eq_refl).
Defined.

Lemma asset_file_name_witness :
  asset_stem the_fool = replace " " "_" (ascii_lower (name the_fool))
  /\ String.length (asset_stem the_fool) = String.length (name the_fool)
  /\ forall c, In c (chars (asset_stem the_fool)) -> is_upper c = false.
Proof.
  apply (proj2 (proj2 (proj2 (asset_file_name the_fool)))).
  reflexivity.
Defined.

Lemma lookup_by_full_name_witness :
  exists found,
    find_card [the_fool; ace_of_cups] (name ace_of_cups) = Some found
    /\ In found [the_fool; ace_of_cups]
    /\ name_matches (name ace_of_cups) found.
Proof.
  apply (lookup_by_full_name [the_fool; ace_of_cups] ace_of_cups).
  simpl. right. left. reflexivity.
Defined.

Lemma lookup_shows_the_card_witness :
  exists embed,
    single_card unreadable_assets [the_fool; ace_of_cups] (Some "CUPS")
      (fresh_bot (constant_rng 0))
    = (Returned tt,
       {| rand := constant_rng 0;
          sent := ([] ++ SendEmbed embed
                      :: art_messages unreadable_assets ace_of_cups)%list |})
    /\ embed_title embed = "🃏 " ++ name ace_of_cups
    /\ map field_name (embed_fields embed) = card_field_names ace_of_cups
    /\ map field_value (embed_fields embed) = card_field_values ace_of_cups.
Proof.
  apply (lookup_shows_the_card unreadable_assets [the_fool; ace_of_cups] "CUPS"
           ace_of_cups (fresh_bot (constant_rng 0))); reflexivity.
Defined.

Lemma random_card_of_empty_deck_witness :
  single_card no_assets [] None (fresh_bot (constant_rng 0))
  = (Raised (IndexError "Cannot choose from an empty sequence"),
     fresh_bot (constant_rng 0)).
Proof.
  apply (proj1 (random_card_of_empty_deck no_assets None
                  (fresh_bot (constant_rng 0)) eq_refl)).
Defined.

Lemma random_card_of_deck_witness :
  exists card embed,
    nth_error [the_fool; ace_of_cups]
      (tape (rand (fresh_bot (constant_rng 1)))
            (cursor (rand (fresh_bot (constant_rng 1))))
       mod List.length [the_fool; ace_of_cups])
    = Some card
    /\ single_card no_assets [the_fool; ace_of_cups] None
         (fresh_bot (constant_rng 1))
       = (Returned tt,
          {| rand := skip 1 (rand (fresh_bot (constant_rng 1)));
             sent := (sent (fresh_bot (constant_rng 1))
                      ++ SendEmbed embed :: art_messages no_assets card)%list |})
    /\ embed_title embed = "🃏 " ++ name card.
Proof.
  apply (random_card_of_deck no_assets [the_fool; ace_of_cups] None
           (fresh_bot (constant_rng 1))).
  - reflexivity.
  - discriminate.
Defined.

Lemma daily_card_is_consistent_witness :
  exists card embed,
    let r := coin_at (chan_rand (fresh_channel (constant_rng 1))) 1 in
    nth_error [the_fool; ace_of_cups]
      (tape (chan_rand (fresh_channel (constant_rng 1)))
            (cursor (chan_rand (fresh_channel (constant_rng 1))))
       mod List.length [the_fool; ace_of_cups])
    = Some card
    /\ daily_draw [the_fool; ace_of_cups] "ann" (fresh_channel (constant_rng 1))
       = (Returned tt,
          {| chan_rand := skip 2 (chan_rand (fresh_channel (constant_rng 1)));
             chan_sent := (chan_sent (fresh_channel (constant_rng 1))
                           ++ [embed])%list |})
    /\ deck_description embed
       = Some ("**" ++ name card ++ "** (" ++ orientation_label r ++ ")")
    /\ map field_name (deck_fields embed)
       = ["Message for Today"; "Keywords"; "Advice"]
    /\ map field_value (deck_fields embed)
       = [ if r then meaning_rev card else meaning_up card;
           join ", " (keywords card);
           if r
           then "This card reversed suggests you may need to reconsider this area of your life."
           else "This card upright is a positive sign. Embrace its energy today." ]
    /\ deck_footer embed = Some ("For " ++ "ann").
Proof.
  apply (daily_card_is_consistent [the_fool; ace_of_cups] "ann"
           (fresh_channel (constant_rng 1))).
  discriminate.
Defined.

Lemma cards_listing_suits_witness :
  let minors := filter (arcana_is "minor") (the_fool :: ace_of_cups :: twelve_wands) in
  exists embed major suits,
    list_cards first_occurrence_order (the_fool :: ace_of_cups :: twelve_wands)
      (fresh_channel (constant_rng 0))
    = (Returned tt,
       {| chan_rand := chan_rand (fresh_channel (constant_rng 0));
          chan_sent := (chan_sent (fresh_channel (constant_rng 0)) ++ [embed])%list |})
    /\ Permutation suits (nodup string_dec (truthy_suits minors))
    /\ deck_fields embed
       = major
         :: map (fun suit =>
                   {| field_name := title suit ++ " (14 cards)";
                      field_value :=
                        join nl (map name
                                   (firstn 10 (filter (suit_is suit) minors)));
                      field_inline := true |})
                suits
    /\ forall suit,
         In suit suits ->
         List.length (firstn 10 (filter (suit_is suit) minors))
         = Nat.min 10 (List.length (filter (suit_is suit) minors))
         /\ 1 <= List.length (firstn 10 (filter (suit_is suit) minors)) <= 10.
Proof.
  apply (cards_listing_suits first_occurrence_order
           (the_fool :: ace_of_cups :: twelve_wands)
           (fresh_channel (constant_rng 0))).
  exact first_occurrence_iterates.
Defined.
